(** * skelm.large_elm: LargeELMRegressor

    A shallow embedding of [src/skelm/large_elm.py] and the proofs of the
    properties stated about it.

    Part I holds the definitions, Part II the theorems.  Both follow the
    same order.

    - Preliminaries: Python exceptions as an error monad, the calls to the
      tensor engine's [wait]/[persist] as a log of events, and the
      accumulation loop of [fit] (lines 139-181), written once over the two
      operations the engine supplies (one shard's contribution, and [+=]).
    - Arrays: the arithmetic of [fit] and [predict] on arrays whose shapes
      fit together, with arrays as matrices over a field (the reals; the
      rounding of floating point numbers is not modelled).
    - Estimator: the control flow of [fit] and [predict] on the estimator's
      attributes, with every array abstracted to its shape; this is where the
      guards, the exceptions and the updates of [self] live. *)

Set Warnings "-notation-overridden,-ambiguous-paths,-redundant-canonical-projection,-deprecated".
From HB Require Import structures.
From mathcomp Require Import boot order algebra.

Set Implicit Arguments.
Unset Strict Implicit.
Unset Printing Implicit Defensive.

Import GRing.Theory.
Local Open Scope ring_scope.

(** * Part I: definitions *)

(** ** Exceptions *)

(** The exceptions [fit] and [predict] can end with.  The four [ValueError]s
    are the ones raised by [fit] itself (lines 96, 99, 108 and 112);
    [NotFittedError] is raised by [check_is_fitted] (line 232); the others
    come from Python ([X[0]] on an empty list, [i % 0], an attribute that
    is not set) or from the collaborators (file reading, the tensor engine
    with its cluster and client, [_init_hidden_layers], [check_array]). *)
Inductive error : Set :=
  | ValueError_expected_lists      (* line 96 *)
  | ValueError_same_length         (* line 99 *)
  | ValueError_input_shape         (* line 108 *)
  | ValueError_output_shape        (* line 112 *)
  | NotFittedError                 (* line 232 *)
  | IndexError
  | ZeroDivisionError
  | AttributeError
  | DataAccessError
  | EngineError
  | HiddenLayerError
  | ValueError_check_array.

Definition error_code (e : error) : nat :=
  match e with
  | ValueError_expected_lists => 0
  | ValueError_same_length => 1
  | ValueError_input_shape => 2
  | ValueError_output_shape => 3
  | NotFittedError => 4
  | IndexError => 5
  | ZeroDivisionError => 6
  | DataAccessError => 7
  | EngineError => 8
  | ValueError_check_array => 9
  | AttributeError => 10
  | HiddenLayerError => 11
  end%N.

(** The shape-mismatch errors of the spec: the two raised at lines 108, 112. *)
Definition shape_mismatch (e : error) : bool :=
  match e with
  | ValueError_input_shape | ValueError_output_shape => true
  | _ => false
  end.

Inductive exc (A : Type) : Type :=
  | Ok (a : A)
  | Raise (e : error).

Arguments Ok {A} a.
Arguments Raise {A} e.

Definition bind {A B : Type} (c : exc A) (k : A -> exc B) : exc B :=
  match c with
  | Ok a => k a
  | Raise e => Raise e
  end.

Notation "x <- c ;; k" := (bind c (fun x => k))
  (at level 61, c at next level, right associativity).

Notation "' pat <- c ;; k" := (bind c (fun x => let: pat := x in k))
  (at level 61, pat pattern, c at next level, right associativity).

(** A left fold that stops at the first exception: a Python [for] loop
    whose body can raise. *)
Fixpoint for_each {S T : Type} (body : S -> T -> exc S) (s : S) (l : seq T)
  : exc S :=
  match l with
  | [::] => Ok s
  | x :: l' => s' <- body s x ;; for_each body s' l'
  end.

(** Python's [a % b] on non-negative integers. *)
Definition py_mod (a b : nat) : exc nat :=
  if b == 0%N then Raise ZeroDivisionError else Ok (a %% b)%N.

(** ** Synchronisation calls *)

(** The calls [fit] makes to the engine's synchronisation primitives, each
    tagged with the place it is made at: [wait([HH, HY])] at line 173 and
    [self.client_.persist([HH, HY])] at line 177, in the iteration of index
    [i], and [wait([HH, HY])] at line 181, after the loop. *)
Inductive event : Set :=
  | wait_in_loop (i : nat)
  | persist (i : nat)
  | wait_after_loop.

Definition event_code (e : event) : nat + nat + unit :=
  match e with
  | wait_in_loop i => inl (inl i)
  | persist i => inl (inr i)
  | wait_after_loop => inr tt
  end.

(** [sync_every is not None and i % sync_every == 0] (lines 172, 176). *)
Definition at_sync (sync_every : option nat) (i : nat) : exc bool :=
  match sync_every with
  | None => Ok false
  | Some s => r <- py_mod i s ;; Ok (r == 0%N)
  end.

(** ** The accumulation loop of [fit] (lines 139-181) *)

Section Loop.

(** [shard] is what one iteration gets from [zip(range(len(X)), X, y)]
    besides the index; [acc] is the pair [(HH, HY)]. *)
Variables (shard acc : Type).

(** Lines 144-165 and the two [da.dot] of lines 167-168 or 170-171: the pair
    [(H^T H, H^T Y)] of one shard. *)
Variable contribution : shard -> exc acc.

(** The two [+=] of lines 170-171. *)
Variable iadd : acc -> acc -> exc acc.

(** One iteration.  The state is [(HH, HY)], [None] before the first shard,
    with the log of synchronisation calls made so far.  [persist] returns
    the arrays it is given, with the same values. *)
Definition loop_body (sync_every : option nat)
    (st : option acc * seq event) (it : nat * shard)
  : exc (option acc * seq event) :=
  let: (HH_HY, log) := st in
  let: (i, X_y) := it in
  c <- contribution X_y ;;
  '(a, log) <-
    match HH_HY with
    | None => Ok (c, log)                                   (* first iteration *)
    | Some a =>
        a' <- iadd a c ;;
        s <- at_sync sync_every i ;;
        Ok (a', if s then rcons log (wait_in_loop i) else log)
    end ;;
  (* synchronization *)
  s <- at_sync sync_every i ;;
  Ok (Some a, if s then rcons log (persist i) else log).

(** Lines 139-181: the loop over [zip(range(len(X)), X, y)], then the last
    [wait]. *)
Definition accumulate (sync_every : option nat) (shards : seq shard)
  : exc (option acc * seq event) :=
  '(HH_HY, log) <-
    for_each (loop_body sync_every) (None, [::])
             (zip (iota 0 (size shards)) shards) ;;
  (* finishing solution *)
  Ok (HH_HY, if sync_every is Some _ then rcons log wait_after_loop else log).

End Loop.

(** The two results of the loop. *)
Definition accumulators {acc : Type} (r : exc (option acc * seq event))
  : exc (option acc) :=
  '(a, _) <- r ;; Ok a.

Definition sync_log {acc : Type} (r : exc (option acc * seq event))
  : exc (seq event) :=
  '(_, log) <- r ;; Ok log.

(** The calls of a run of the loop over [k] shards, in the order they are
    made: with [sync_every] an integer, [persist]
    alone at index 0, [wait] then [persist] at every later index that is a
    multiple of [sync_every], and one [wait] after the loop; with
    [sync_every] [None], no call at all. *)
Definition sync_calls (s i : nat) : seq event :=
  if (s %| i)%N then [:: wait_in_loop i; persist i] else [::].

Definition sync_trace (sync_every : option nat) (k : nat) : seq event :=
  match sync_every with
  | None => [::]
  | Some s =>
      persist 0 :: flatten [seq sync_calls s i | i <- iota 1 k.-1]
        ++ [:: wait_after_loop]
  end.

(** The calls made in the iterations [i], [i+1], ... once [HH] is set. *)
Definition later_calls (sync_every : option nat) (i n : nat) : seq event :=
  if sync_every is Some s then flatten [seq sync_calls s j | j <- iota i n]
  else [::].

(** ** Batch size and padding *)

(** Lines 116-117: the batch size when [batch_size] is [None]. *)
Definition default_bsize (n_samples : nat) : nat :=
  if (n_samples < 10 * 1000)%N then n_samples else 2000%N.

(** Lines 115-117. *)
Definition fit_bsize (batch_size : option nat) (n_samples : nat) : nat :=
  match batch_size with
  | Some b => b
  | None => default_bsize n_samples
  end.

(** Lines 185-187: [padding], for [n_features] rows of [HH] and batch size
    [bsize].  The test [n_features % bsize > 0] is evaluated only when
    [n_features > bsize] holds, as Python's [and] does. *)
Definition fit_padding (n_features bsize : nat) : exc nat :=
  if (bsize < n_features)%N then
    r <- py_mod n_features bsize ;;
    Ok (if (0 < r)%N then (bsize - r)%N else 0%N)
  else Ok 0%N.

(** ** Hidden layers *)

(** Modelled from the spec: the enumeration [HiddenLayerType] of
    [skelm/utils.py], which is not among the sources.  [large_elm.py] names
    only its member [PAIRWISE]; the spec (section 9) has the two kinds
    fixed projection and pairwise distance, and the fixed projections are
    dense or sparse matrices ([_dense] is applied to them). *)
Inductive HiddenLayerType : Set := RANDOM | SPARSE | PAIRWISE.

Definition is_PAIRWISE (t : HiddenLayerType) : bool :=
  if t is PAIRWISE then true else false.

(** * Arrays: the arithmetic of [fit] and [predict] *)

Section Arrays.

(** Array entries. *)
Variable R : fieldType.

(** [self.n_features_] and [self.n_outputs_]. *)
Variables (n_features_ n_outputs_ : nat).

(** A hidden layer [hl] as [large_elm.py] uses it: [hl.hidden_layer_],
    [hl.projection_.components_] (a matrix with one row per neuron),
    [hl.ufunc_] (a numpy ufunc: it acts on every entry) and
    [hl.pairwise_metric] (a distance between two rows). *)
Record HiddenLayer : Type := {
  hidden_layer_ : HiddenLayerType;
  n_neurons : nat;
  components_ : 'M[R]_(n_neurons, n_features_);
  ufunc_ : R -> R;
  pairwise_metric : 'rV[R]_n_features_ -> 'rV[R]_n_features_ -> R
}.

(** [self.include_original_features], [self.hidden_layers_], [self.alpha]
    and [self.bsize_]. *)
Variable include_original_features : bool.
Variable hidden_layers_ : seq HiddenLayer.
Variable alpha : R.
Variable bsize_ : nat.

(** [sklearn.metrics.pairwise_distances(X, W, metric=...)]: entry [(i, j)]
    is the distance between row [i] of [X] and row [j] of [W]. *)
Definition pairwise_distances (metric : 'rV[R]_n_features_ -> 'rV[R]_n_features_ -> R)
    (r k : nat) (X : 'M[R]_(r, n_features_)) (W : 'M[R]_(k, n_features_))
  : 'M[R]_(r, k) :=
  \matrix_(i, j) metric (row i X) (row j W).

(** Lines 152-162: the block [H0] of one hidden layer for the shard [X].
    [X_dask.map_blocks(pairwise_distances, W, ...)] applies
    [pairwise_distances] to each block of rows of [X_dask] and stacks the
    results; [pairwise_distances_col_mx] below shows that this is
    [pairwise_distances] of the whole of [X]. *)
Definition H0 (hl : HiddenLayer) (r : nat) (X : 'M[R]_(r, n_features_))
  : 'M[R]_(r, n_neurons hl) :=
  let W := components_ hl in
  if is_PAIRWISE (hidden_layer_ hl) then
    pairwise_distances (pairwise_metric hl) X W
  else
    let XW_dask := X *m W^T in
    map_mx (ufunc_ hl) XW_dask.

(** Lines 148-149: the columns [X_dask] adds to [H_list]. *)
Definition original_features (r : nat) (X : 'M[R]_(r, n_features_))
  : 'M[R]_(r, if include_original_features then n_features_ else 0) :=
  if include_original_features as b
     return 'M[R]_(r, if b then n_features_ else 0)
  then X else 0.

(** The width of the blocks of a list of hidden layers. *)
Fixpoint hidden_width (hls : seq HiddenLayer) : nat :=
  match hls with
  | [::] => 0
  | hl :: hls' => n_neurons hl + hidden_width hls'
  end.

(** Lines 151-163: the blocks the loop over [zip(self.hidden_layers_,
    W_dask)] appends to [H_list], side by side. *)
Fixpoint hidden_blocks (r : nat) (X : 'M[R]_(r, n_features_))
    (hls : seq HiddenLayer) : 'M[R]_(r, hidden_width hls) :=
  match hls with
  | [::] => 0
  | hl :: hls' => row_mx (H0 hl X) (hidden_blocks X hls')
  end.

(** The number of columns of the design matrix. *)
Definition n_columns : nat :=
  1 + ((if include_original_features then n_features_ else 0)
       + hidden_width hidden_layers_).

(** Lines 147-165: [H_dask = da.concatenate(H_list, axis=1)], where
    [H_list] is [da.ones((X_dask.shape[0], 1))], then [X_dask] when
    [include_original_features] is set, then one block per hidden layer.
    [rechunk] changes no entry. *)
Definition H_dask (r : nat) (X : 'M[R]_(r, n_features_))
  : 'M[R]_(r, n_columns) :=
  row_mx (const_mx 1 : 'M[R]_(r, 1))
         (row_mx (original_features X) (hidden_blocks X hidden_layers_)).

(** *** Accumulation *)

(** The content of a pair of files [(X_file, y_file)]: the number of rows
    and the two arrays. *)
Definition shard : Type :=
  {r : nat & ('M[R]_(r, n_features_) * 'M[R]_(r, n_outputs_))%type}.

Definition shard_X (s : shard) : 'M[R]_(tag s, n_features_) := (tagged s).1.
Definition shard_Y (s : shard) : 'M[R]_(tag s, n_outputs_) := (tagged s).2.

(** [(HH, HY)]. *)
Definition HH_HY : Type :=
  ('M[R]_n_columns * 'M[R]_(n_columns, n_outputs_))%type.

(** [da.dot(H_dask.transpose(), H_dask)] and
    [da.dot(H_dask.transpose(), Y_dask)] for one shard. *)
Definition HtH (s : shard) : 'M[R]_n_columns :=
  (H_dask (shard_X s))^T *m H_dask (shard_X s).

Definition HtY (s : shard) : 'M[R]_(n_columns, n_outputs_) :=
  (H_dask (shard_X s))^T *m shard_Y s.

Definition shard_contribution (s : shard) : exc HH_HY :=
  Ok (HtH s, HtY s).

(** [HH += ...; HY += ...]. *)
Definition iadd_HH_HY (a c : HH_HY) : exc HH_HY :=
  Ok (a.1 + c.1, a.2 + c.2).

(** Lines 139-181 on arrays. *)
Definition fit_accumulate (sync_every : option nat) (shards : seq shard)
  : exc (option HH_HY * seq event) :=
  accumulate shard_contribution iadd_HH_HY sync_every shards.

(** *** Padding and solve *)

(** [da.linalg.solve(HH, HY, sym_pos=True)]: the array the solver returns
    for the system [HH * B = HY]. *)
Variable solve : forall n m : nat, 'M[R]_n -> 'M[R]_(n, m) -> 'M[R]_(n, m).

(** Lines 184-204, for [HH] with [d] rows.  Under the test of line 186
    [padding] is [bsize_ - d % bsize_], which is positive
    ([fit_padding_pos] below), so that line 204 truncates [B] in exactly
    this branch. *)
Definition fit_solve (d : nat) (HH : 'M[R]_d) (HY : 'M[R]_(d, n_outputs_))
  : exc 'M[R]_(d, n_outputs_) :=
  padding <- fit_padding d bsize_ ;;
  if (0 < padding)%N then
    let HH' : 'M[R]_(d + padding) := block_mx HH 0 0 0 in
    let HY' : 'M[R]_(d + padding, n_outputs_) := col_mx HY 0 in
    let HH' := HH' + alpha *: 1%:M in
    let B := solve HH' HY' in
    Ok (usubmx B)
  else
    let HH' := HH + alpha *: 1%:M in
    Ok (solve HH' HY).

(** *** Prediction *)

(** [self.B]. *)
Variable B : 'M[R]_(n_columns, n_outputs_).

(** The content of the files given to [predict]. *)
Definition shard_input : Type := {r : nat & 'M[R]_(r, n_features_)}.

Fixpoint total_rows (Xs : seq shard_input) : nat :=
  match Xs with
  | [::] => 0
  | X :: Xs' => tag X + total_rows Xs'
  end.

(** The rows of all the files, in the order of the list: the same data as
    one array. *)
Fixpoint stack_rows (Xs : seq shard_input)
  : 'M[R]_(total_rows Xs, n_features_) :=
  match Xs with
  | [::] => 0
  | X :: Xs' => col_mx (tagged X) (stack_rows Xs')
  end.

(** Lines 239-263: [Yh_list] holds [da.dot(H_dask, self.B)] for every
    file, and [da.concatenate(Yh_list, axis=0)] stacks them. *)
Fixpoint Yh_dask (Xs : seq shard_input)
  : 'M[R]_(total_rows Xs, n_outputs_) :=
  match Xs with
  | [::] => 0
  | X :: Xs' => col_mx (H_dask (tagged X) *m B) (Yh_dask Xs')
  end.

(** Lines 234-264: [predict] on a list of files.  [da.concatenate] raises
    [ValueError] on an empty list. *)
Definition predict_files (Xs : seq shard_input)
  : exc 'M[R]_(total_rows Xs, n_outputs_) :=
  if Xs is [::] then Raise EngineError else Ok (Yh_dask Xs).

(** Modelled from the spec: [HiddenLayer.transform] of
    [skelm/hidden_layer.py], which is not among the sources.  The spec has a
    pairwise layer compute the distances between the rows of the input and
    the layer's reference points, and any other layer apply its
    nonlinearity to input times projection transposed (4.1 step 4), and asks
    for "identical hidden-layer application rules" in both modes of
    [predict] (4.4). *)
Definition transform (hl : HiddenLayer) (r : nat) (X : 'M[R]_(r, n_features_))
  : 'M[R]_(r, n_neurons hl) :=
  if is_PAIRWISE (hidden_layer_ hl) then
    pairwise_distances (pairwise_metric hl) X (components_ hl)
  else map_mx (ufunc_ hl) (X *m (components_ hl)^T).

(** [[hl.transform(X) for hl in self.hidden_layers_]], side by side. *)
Fixpoint transforms (r : nat) (X : 'M[R]_(r, n_features_))
    (hls : seq HiddenLayer) : 'M[R]_(r, hidden_width hls) :=
  match hls with
  | [::] => 0
  | hl :: hls' => row_mx (transform hl X) (transforms X hls')
  end.

(** [sklearn.utils.validation.check_array(X, accept_sparse=True)] on a
    numeric 2-D array: with its default arguments it raises [ValueError]
    when the array has no row or no column. *)
Definition check_array (r c : nat) (X : 'M[R]_(r, c)) : exc 'M[R]_(r, c) :=
  if (0 < r)%N && (0 < c)%N then Ok X else Raise ValueError_check_array.

(** Lines 267-273: [predict] on an array;
    [np.hstack(H) @ self.B.compute()]. *)
Definition predict_array (r : nat) (X : 'M[R]_(r, n_features_))
  : exc 'M[R]_(r, n_outputs_) :=
  X <- check_array X ;;
  let H : 'M[R]_(r, n_columns) :=
    row_mx (const_mx 1 : 'M[R]_(r, 1))
           (row_mx (original_features X) (transforms X hidden_layers_)) in
  Ok (H *m B).

(** The entries of row [i], from left to right. *)
Definition row_entries (r c : nat) (M : 'M[R]_(r, c)) (i : 'I_r) : seq R :=
  [seq M i j | j <- enum 'I_c].

End Arrays.

(** ** Concrete arrays *)

(** A solver for the examples: the inverse of the matrix times the right
    hand side, over the rationals. *)
Definition exact_solve (n m : nat) (A : 'M[rat]_n) (Y : 'M[rat]_(n, m))
  : 'M[rat]_(n, m) :=
  invmx A *m Y.

(** One shard of one row, one feature and one output. *)
Definition shard_1x1 : shard rat 1 1 :=
  existT _ 1%N (1%:M, 1%:M).

(** One shard of two rows. *)
Definition shard_2x1 : shard rat 1 1 :=
  existT _ 2%N (const_mx 2%:R, const_mx 3%:R).

Definition shard_input_1x1 : shard_input rat 1 :=
  existT _ 1%N 1%:M.

(** Two hidden layers on one feature: a projection with the square as
    nonlinearity, and a pairwise layer with the squared difference as
    distance. *)
Definition layer_square : HiddenLayer rat 1 :=
  {| hidden_layer_ := RANDOM; n_neurons := 1; components_ := 1%:M;
     ufunc_ := fun x => x * x; pairwise_metric := fun _ _ => 0 |}.

Definition layer_distance : HiddenLayer rat 1 :=
  {| hidden_layer_ := PAIRWISE; n_neurons := 1; components_ := 1%:M;
     ufunc_ := id;
     pairwise_metric := fun u v => (u 0 0 - v 0 0) * (u 0 0 - v 0 0) |}.

Definition layers_1 : seq (HiddenLayer rat 1) :=
  [:: layer_square; layer_distance].

(** * Estimator: the control flow of [fit] and [predict] *)

(** The shape of a 2-D array: rows and columns. *)
Definition shape : Type := (nat * nat)%type.

(** The attributes of a [LargeELMRegressor] that [large_elm.py] reads or
    writes.  [batch_size] and [include_original_features] are parameters of
    the constructor.  The attributes with a trailing underscore are set by
    [fit]; [None] stands for an attribute that is not set ([hasattr] is
    false), and [is_fitted_] is true when this attribute is set.  Arrays
    are kept as their shapes, a hidden layer as its kind and the shape of
    its [projection_.components_], and [cluster_] and [client_] tell
    whether these attributes are set. *)
Record LargeELMRegressor : Type := {
  batch_size : option nat;
  include_original_features : bool;
  n_features_ : option nat;
  n_outputs_ : option nat;
  bsize_ : option nat;
  cluster_ : bool;
  client_ : bool;
  hidden_layers_ : option (seq (HiddenLayerType * shape));
  B : option shape;
  is_fitted_ : bool
}.

(** An estimator on which [fit] was never called. *)
Definition unfitted (batch_size : option nat)
    (include_original_features : bool) : LargeELMRegressor :=
  {| batch_size := batch_size;
     include_original_features := include_original_features;
     n_features_ := None; n_outputs_ := None; bsize_ := None;
     cluster_ := false; client_ := false; hidden_layers_ := None;
     B := None; is_fitted_ := false |}.

(** [self.bsize_ = b]. *)
Definition set_bsize_ (self : LargeELMRegressor) (b : nat)
  : LargeELMRegressor :=
  {| batch_size := batch_size self;
     include_original_features := include_original_features self;
     n_features_ := n_features_ self; n_outputs_ := n_outputs_ self;
     bsize_ := Some b;
     cluster_ := cluster_ self; client_ := client_ self;
     hidden_layers_ := hidden_layers_ self;
     B := B self; is_fitted_ := is_fitted_ self |}.

(** [self.n_features_ = n_features] (line 121). *)
Definition set_n_features_ (self : LargeELMRegressor) (n_features : nat)
  : LargeELMRegressor :=
  {| batch_size := batch_size self;
     include_original_features := include_original_features self;
     n_features_ := Some n_features; n_outputs_ := n_outputs_ self;
     bsize_ := bsize_ self;
     cluster_ := cluster_ self; client_ := client_ self;
     hidden_layers_ := hidden_layers_ self;
     B := B self; is_fitted_ := is_fitted_ self |}.

(** [self.n_outputs_ = n_outputs] (line 122). *)
Definition set_n_outputs_ (self : LargeELMRegressor) (n_outputs : nat)
  : LargeELMRegressor :=
  {| batch_size := batch_size self;
     include_original_features := include_original_features self;
     n_features_ := n_features_ self; n_outputs_ := Some n_outputs;
     bsize_ := bsize_ self;
     cluster_ := cluster_ self; client_ := client_ self;
     hidden_layers_ := hidden_layers_ self;
     B := B self; is_fitted_ := is_fitted_ self |}.

(** [self.cluster_ = ...] (line 123). *)
Definition set_cluster_ (self : LargeELMRegressor) : LargeELMRegressor :=
  {| batch_size := batch_size self;
     include_original_features := include_original_features self;
     n_features_ := n_features_ self; n_outputs_ := n_outputs_ self;
     bsize_ := bsize_ self;
     cluster_ := true; client_ := client_ self;
     hidden_layers_ := hidden_layers_ self;
     B := B self; is_fitted_ := is_fitted_ self |}.

(** [self.client_ = ...] (line 124). *)
Definition set_client_ (self : LargeELMRegressor) : LargeELMRegressor :=
  {| batch_size := batch_size self;
     include_original_features := include_original_features self;
     n_features_ := n_features_ self; n_outputs_ := n_outputs_ self;
     bsize_ := bsize_ self;
     cluster_ := cluster_ self; client_ := true;
     hidden_layers_ := hidden_layers_ self;
     B := B self; is_fitted_ := is_fitted_ self |}.

(** The value [_init_hidden_layers] leaves in [self.hidden_layers_]. *)
Definition set_hidden_layers_ (self : LargeELMRegressor) (hls : option (seq (HiddenLayerType * shape)))
  : LargeELMRegressor :=
  {| batch_size := batch_size self;
     include_original_features := include_original_features self;
     n_features_ := n_features_ self; n_outputs_ := n_outputs_ self;
     bsize_ := bsize_ self;
     cluster_ := cluster_ self; client_ := client_ self;
     hidden_layers_ := hls;
     B := B self; is_fitted_ := is_fitted_ self |}.

(** [self.B = B]. *)
Definition set_B (self : LargeELMRegressor) (b : shape)
  : LargeELMRegressor :=
  {| batch_size := batch_size self;
     include_original_features := include_original_features self;
     n_features_ := n_features_ self; n_outputs_ := n_outputs_ self;
     bsize_ := bsize_ self;
     cluster_ := cluster_ self; client_ := client_ self;
     hidden_layers_ := hidden_layers_ self;
     B := Some b; is_fitted_ := is_fitted_ self |}.

(** [self.is_fitted_ = True]. *)
Definition set_is_fitted_ (self : LargeELMRegressor) : LargeELMRegressor :=
  {| batch_size := batch_size self;
     include_original_features := include_original_features self;
     n_features_ := n_features_ self; n_outputs_ := n_outputs_ self;
     bsize_ := bsize_ self;
     cluster_ := cluster_ self; client_ := client_ self;
     hidden_layers_ := hidden_layers_ self;
     B := B self; is_fitted_ := true |}.

(** The exception [e] when a collaborator raised. *)
Definition or_raise {A : Type} (e : error) (o : option A) : exc A :=
  if o is Some a then Ok a else Raise e.

Section Estimator.

(** File names. *)
Variable fname : Type.

(** What a caller can pass for [X] or [y]: a list of file names, an array
    (of which the shape is kept), or anything else, such as [None]. *)
Inductive argument : Type :=
  | list_of_strings (files : seq fname)
  | ndarray (s : shape)
  | other.

(** Modelled from the spec: [_is_list_of_strings] of [skelm/utils.py],
    which is not among the sources; by its name, and by the spec's
    "non-list ... file lists -> input-validation failure", it holds of the
    lists of file names. *)
Definition _is_list_of_strings (X : argument) : bool :=
  if X is list_of_strings _ then true else false.

Definition files_of (X : argument) : seq fname :=
  if X is list_of_strings files then files else [::].

(** ** The collaborators *)

(** [dd.read_parquet(f).to_dask_array(lengths=True)]: the shape of the
    array in file [f], [None] when reading raises. *)
Variable read_parquet : fname -> option shape.

(** [LocalCluster(n_workers=4)] (line 123) and [Client(self.cluster_)]
    (line 124) of [dask.distributed]: whether the call returns. *)
Variable LocalCluster : LargeELMRegressor -> bool.
Variable Client : LargeELMRegressor -> bool.

(** [X_dask[:10].compute()] (line 135) on a sample of the given shape:
    whether the call returns. *)
Variable engine_sample : LargeELMRegressor -> shape -> bool.

(** [self._init_hidden_layers(X_sample)] of [skelm/elm.py], which is not
    among the sources: what the call leaves in [self.hidden_layers_]
    ([None] when the attribute is still not set), and whether the call
    returns. *)
Variable _init_hidden_layers :
  LargeELMRegressor -> shape
  -> option (seq (HiddenLayerType * shape)) * bool.

(** [da.from_array(_dense(hl.projection_.components_))] over the hidden
    layers (line 138): whether the list is built. *)
Variable engine_from_array : seq (HiddenLayerType * shape) -> bool.

(** The tensor engine on the arrays of [fit], as shapes; [None] when the
    engine raises.  [engine_contribution self X_dask Y_dask] is lines
    147-165 and the two [da.dot] that follow, [engine_iadd] the two [+=],
    [engine_solve self (HH, HY) padding] lines 188-204, and
    [engine_compute] tells whether [HH.compute()] at line 208 returns. *)
Variable engine_contribution :
  LargeELMRegressor -> shape -> shape -> option (shape * shape).
Variable engine_iadd : shape * shape -> shape * shape -> option (shape * shape).
Variable engine_solve :
  LargeELMRegressor -> shape * shape -> nat -> option shape.
Variable engine_compute : LargeELMRegressor -> shape * shape -> bool.

(** The tensor engine and numpy on the arrays of [predict]:
    [engine_predict self X_dask] is lines 242-261, [engine_concatenate]
    lines 263-264, and [numpy_predict self X] lines 267-273. *)
Variable engine_predict : LargeELMRegressor -> shape -> option shape.
Variable engine_concatenate : seq shape -> option shape.
Variable numpy_predict : LargeELMRegressor -> shape -> option shape.

(** ** [fit] *)

(** [l[0]]. *)
Definition item0 {A : Type} (l : seq A) : exc A :=
  if l is x :: _ then Ok x else Raise IndexError.

(** Lines 95-112: the checks, which leave [self] as it is; they return
    [n_samples], [n_features] and [n_outputs] of the first shard. *)
Definition fit_checks (self : LargeELMRegressor) (X y : argument)
  : exc (nat * nat * nat) :=
  if ~~ _is_list_of_strings X || ~~ _is_list_of_strings y then
    Raise ValueError_expected_lists
  else if size (files_of X) != size (files_of y) then
    Raise ValueError_same_length
  else
    (* read first file and get parameters *)
    X0 <- item0 (files_of X) ;;
    X_dask <- or_raise DataAccessError (read_parquet X0) ;;
    y0 <- item0 (files_of y) ;;
    Y_dask <- or_raise DataAccessError (read_parquet y0) ;;
    let: (n_samples, n_features) := X_dask in
    if (if n_features_ self is Some n then n != n_features else false) then
      Raise ValueError_input_shape
    else
      let: (_, n_outputs) := Y_dask in
      if (if n_outputs_ self is Some n then n != n_outputs else false) then
        Raise ValueError_output_shape
      else Ok (n_samples, n_features, n_outputs).

(** Lines 119-136: init model if not fit yet.  The attributes are set one
    after the other, and each of the calls in between can raise: the
    estimator then keeps what was set before.  [X_sample] is
    [X_dask[:10]]; the [try] of lines 127-133 catches every exception. *)
Definition fit_init (self : LargeELMRegressor)
    (n_samples n_features n_outputs : nat) : LargeELMRegressor * exc unit :=
  if hidden_layers_ self is None then
    let self := set_n_features_ self n_features in
    let self := set_n_outputs_ self n_outputs in
    if ~~ LocalCluster self then (self, Raise EngineError) else
    let self := set_cluster_ self in
    if ~~ Client self then (self, Raise EngineError) else
    let self := set_client_ self in
    let X_sample := (minn n_samples 10, n_features) in
    if ~~ engine_sample self X_sample then (self, Raise EngineError) else
    let: (hls, returned) := _init_hidden_layers self X_sample in
    (set_hidden_layers_ self hls,
     if returned then Ok tt else Raise HiddenLayerError)
  else (self, Ok tt).

(** Line 138: [W_dask], one array per hidden layer; reading
    [self.hidden_layers_] raises when the attribute is not set. *)
Definition fit_W_dask (self : LargeELMRegressor) : exc unit :=
  if hidden_layers_ self is Some hls then
    if engine_from_array hls then Ok tt else Raise EngineError
  else Raise AttributeError.

(** Lines 144-171 for one pair of files. *)
Definition file_contribution (self : LargeELMRegressor)
    (X_y : fname * fname) : exc (shape * shape) :=
  let: (X_file, y_file) := X_y in
  X_dask <- or_raise DataAccessError (read_parquet X_file) ;;
  Y_dask <- or_raise DataAccessError (read_parquet y_file) ;;
  or_raise EngineError (engine_contribution self X_dask Y_dask).

(** Lines 138-204: the loop, the padding and the solve; the shape of
    [B]. *)
Definition fit_B (self : LargeELMRegressor) (bsize : nat)
    (X y : seq fname) (sync_every : option nat)
  : exc (shape * (shape * shape)) :=
  '(HH_HY, _) <-
    accumulate (file_contribution self)
               (fun a c => or_raise EngineError (engine_iadd a c))
               sync_every (zip X y) ;;
  match HH_HY with
  | None => Raise AttributeError                          (* [None.shape] *)
  | Some (HH, HY) =>
      let n_features := HH.1 in
      padding <- fit_padding n_features bsize ;;
      B <- or_raise EngineError (engine_solve self (HH, HY) padding) ;;
      Ok (B, (HH, HY))
  end.

(** [fit(self, X, y, sync_every)]: the estimator after the call, and
    whether the call returned or raised. *)
Definition fit (self : LargeELMRegressor) (X y : argument)
    (sync_every : option nat) : LargeELMRegressor * exc unit :=
  match fit_checks self X y with
  | Raise e => (self, Raise e)
  | Ok (n_samples, n_features, n_outputs) =>
      (* set batch size *)
      let bsize := fit_bsize (batch_size self) n_samples in
      let self := set_bsize_ self bsize in
      let: (self, init) := fit_init self n_samples n_features n_outputs in
      match (_ <- init ;; fit_W_dask self) with
      | Raise e => (self, Raise e)
      | Ok _ =>
          match fit_B self bsize (files_of X) (files_of y) sync_every with
          | Raise e => (self, Raise e)
          | Ok (B, HH_HY) =>
              let self := set_B self B in
              if engine_compute self HH_HY then (set_is_fitted_ self, Ok tt)
              else (self, Raise EngineError)
          end
      end
  end.

(** ** [predict] *)

(** Lines 239-261: the loop over the files. *)
Definition predict_file (self : LargeELMRegressor) (Yh_list : seq shape)
    (X_file : fname) : exc (seq shape) :=
  X_dask <- or_raise DataAccessError (read_parquet X_file) ;;
  Yh <- or_raise EngineError (engine_predict self X_dask) ;;
  Ok (rcons Yh_list Yh).

(** [sklearn.utils.validation.check_is_fitted(self, 'is_fitted_')]. *)
Definition check_is_fitted (self : LargeELMRegressor) : exc unit :=
  if is_fitted_ self then Ok tt else Raise NotFittedError.

(** [predict(self, X)]: the shape of the array it returns. *)
Definition predict (self : LargeELMRegressor) (X : argument) : exc shape :=
  _ <- check_is_fitted self ;;
  if _is_list_of_strings X then
    Yh_list <- for_each (predict_file self) [::] (files_of X) ;;
    or_raise EngineError (engine_concatenate Yh_list)
  else
    match X with
    | ndarray s => or_raise ValueError_check_array (numpy_predict self s)
    | _ => Raise ValueError_check_array
    end.

(** ** Histories of calls *)

(** A call of [fit]: [X], [y] and [sync_every]. *)
Definition fit_call : Type := (argument * argument * option nat)%type.

Definition fit_of (self : LargeELMRegressor) (c : fit_call)
  : LargeELMRegressor * exc unit :=
  fit self c.1.1 c.1.2 c.2.

(** The estimator after a sequence of calls of [fit]. *)
Definition fit_all (self : LargeELMRegressor) (calls : seq fit_call)
  : LargeELMRegressor :=
  foldl (fun self c => (fit_of self c).1) self calls.

Definition raised {A : Type} (r : exc A) : bool :=
  if r is Raise _ then true else false.

(** Every call of the sequence raised. *)
Fixpoint all_raised (self : LargeELMRegressor) (calls : seq fit_call)
  : bool :=
  match calls with
  | [::] => true
  | c :: calls' =>
      raised (fit_of self c).2 && all_raised (fit_of self c).1 calls'
  end.

(** The first shard of a call differs from the recorded schema: the tests
    of lines 107 and 111. *)
Definition schema_differs (self : LargeELMRegressor)
    (n_features n_outputs : nat) : bool :=
  (if n_features_ self is Some n then n != n_features else false)
  || (if n_outputs_ self is Some n then n != n_outputs else false).

(** A fitted estimator has hidden layers, and an estimator with hidden
    layers has a recorded schema. *)
Definition initialised (self : LargeELMRegressor) : bool :=
  (is_fitted_ self ==> isSome (hidden_layers_ self))
  && (isSome (hidden_layers_ self)
        ==> isSome (n_features_ self) && isSome (n_outputs_ self)).

End Estimator.

(** ** Concrete files *)

(** Files named by numbers: the inputs 0, 2 and 4 have 3 features and 100,
    500 and 5000 rows, the targets 1, 3 and 5 have one output and as many
    rows, the input 6 has 100 rows and 4 features, and the input 7 and the
    target 8 have 3 features, one output and no rows.  No other file can
    be read. *)
Definition example_read (f : nat) : option shape :=
  nth None
      [:: Some (100, 3); Some (100, 1); Some (500, 3); Some (500, 1);
          Some (5000, 3); Some (5000, 1); Some (100, 4);
          Some (0, 3); Some (0, 1)]%N f.

(** A cluster and a client that start, and a sample that is computed. *)
Definition example_LocalCluster (self : LargeELMRegressor) : bool := true.

Definition example_Client (self : LargeELMRegressor) : bool := true.

Definition example_sample (self : LargeELMRegressor) (X_sample : shape)
  : bool :=
  true.

(** One hidden layer of 5 neurons; on a sample without rows the call
    raises and leaves [hidden_layers_] unset. *)
Definition example_init (self : LargeELMRegressor) (X_sample : shape)
  : option (seq (HiddenLayerType * shape)) * bool :=
  if X_sample.1 == 0%N then (None, false)
  else (Some [:: (RANDOM, (5%N, X_sample.2))], true).

Definition example_from_array (hls : seq (HiddenLayerType * shape)) : bool :=
  true.

(** A tensor engine on shapes: a product needs the inner dimensions to
    agree, and a sum the same shapes. *)
Definition example_contribution (self : LargeELMRegressor)
    (X_dask Y_dask : shape) : option (shape * shape) :=
  if hidden_layers_ self is Some hls then
    if (X_dask.1 == Y_dask.1)
       && all (fun hl => is_PAIRWISE hl.1 || (hl.2.2 == X_dask.2)) hls
    then
      let d := (1 + (if include_original_features self then X_dask.2 else 0)
                + sumn [seq hl.2.1 | hl <- hls])%N in
      Some ((d, d), (d, Y_dask.2))
    else None
  else None.

Definition example_iadd (a c : shape * shape) : option (shape * shape) :=
  if a == c then Some a else None.

Definition example_solve (self : LargeELMRegressor) (HH_HY : shape * shape)
    (padding : nat) : option shape :=
  Some (HH_HY.1.1, HH_HY.2.2).

Definition example_compute (self : LargeELMRegressor)
    (HH_HY : shape * shape) : bool :=
  true.

Definition example_predict (self : LargeELMRegressor) (X_dask : shape)
  : option shape :=
  if B self is Some b then Some (X_dask.1, b.2) else None.

Definition example_concatenate (Yh_list : seq shape) : option shape :=
  if Yh_list is Yh :: _ then Some (sumn [seq s.1 | s <- Yh_list], Yh.2)
  else None.

Definition example_fit (self : LargeELMRegressor) (X y : argument nat)
    (sync_every : option nat) : LargeELMRegressor * exc unit :=
  fit example_read example_LocalCluster example_Client example_sample
      example_init example_from_array example_contribution example_iadd
      example_solve example_compute self X y sync_every.

Definition example_predict_call (self : LargeELMRegressor)
    (X : argument nat) : exc shape :=
  predict example_read example_predict example_concatenate example_predict
          self X.

(** An estimator fitted on the files 0 and 1. *)
Definition fitted_on_100_rows : LargeELMRegressor :=
  (example_fit (unfitted None true) (list_of_strings [:: 0%N])
               (list_of_strings [:: 1%N]) (Some 10%N)).1.

(** The history of [fitted_on_100_rows]. *)
Definition calls_100_rows : seq (fit_call nat) :=
  [:: (list_of_strings [:: 0%N], list_of_strings [:: 1%N], Some 10%N)].

(** A call of [fit] on lists of different lengths raises. *)
Definition calls_raising : seq (fit_call nat) :=
  [:: (list_of_strings [:: 0%N], list_of_strings [:: 1%N; 3%N], Some 10%N);
      (list_of_strings [:: 0%N], other nat, None)].

(** ** [_read_numeric_file] (lines 14-28) *)

Section ReadNumericFile.

(** File names, dask dataframes and numpy arrays. *)
Variables (fname dataframe numpy_array : Type).

(** [dd.read_parquet], [dd.read_csv] and [np.load]. *)
Variable dd_read_parquet : fname -> exc dataframe.
Variable dd_read_csv : fname -> exc dataframe.
Variable np_load : fname -> exc numpy_array.

(** What [_read_numeric_file] returns when it returns a value. *)
Inductive numeric_file : Type :=
  | from_dataframe (df : dataframe)
  | from_array (a : numpy_array).

(** [try: return c] / [except: pass], followed by [rest]: the bare
    [except] catches every exception. *)
Definition try_return {A : Type} (c : exc A) (rest : exc (option A))
  : exc (option A) :=
  match c with
  | Ok a => Ok (Some a)
  | Raise _ => rest
  end.

(** Lines 14-28.  After the third [try] the function ends without a
    [return]: it returns [None]. *)
Definition _read_numeric_file (f : fname) : exc (option numeric_file) :=
  try_return (df <- dd_read_parquet f ;; Ok (from_dataframe df))
    (try_return (df <- dd_read_csv f ;; Ok (from_dataframe df))
       (try_return (a <- np_load f ;; Ok (from_array a))
          (Ok None))).

End ReadNumericFile.

(** ** [fit] on arrays, from the loop to [B] *)

Section ArraysFit.

Variable R : fieldType.
Variables (n_features_ n_outputs_ : nat).
Variable include_original_features : bool.
Variable hidden_layers_ : seq (HiddenLayer R n_features_).
Variable alpha : R.
Variable bsize_ : nat.
Variable solve : forall n m : nat, 'M[R]_n -> 'M[R]_(n, m) -> 'M[R]_(n, m).

(** [H.rechunk(bsize)] (line 165).  The entries stay as they are.  Dask
    cuts every dimension of the array into chunks of [bsize] and takes the
    integer quotient of the dimension by [bsize] unless the dimension is
    0: with [bsize = 0] it raises [ZeroDivisionError] for an array that has
    a row or a column. *)
Definition rechunk (bsize r c : nat) (H : 'M[R]_(r, c)) : exc 'M[R]_(r, c) :=
  if (bsize == 0%N) && ((0 < r)%N || (0 < c)%N)
  then Raise ZeroDivisionError else Ok H.

(** Lines 147-171 for one shard, with the [rechunk] of line 165. *)
Definition rechunked_contribution (s : shard R n_features_ n_outputs_)
  : exc (HH_HY n_outputs_ include_original_features hidden_layers_) :=
  H_dask <-
    rechunk bsize_
      (H_dask include_original_features hidden_layers_ (shard_X s)) ;;
  Ok (H_dask^T *m H_dask, H_dask^T *m shard_Y s).

(** Lines 139-181, with the [rechunk] of line 165. *)
Definition fit_loop (sync_every : option nat)
    (shards : seq (shard R n_features_ n_outputs_))
  : exc (option (HH_HY n_outputs_ include_original_features hidden_layers_)
         * seq event) :=
  accumulate rechunked_contribution
             (@iadd_HH_HY R n_features_ n_outputs_ include_original_features
                          hidden_layers_)
             sync_every shards.

(** Lines 139-206: the loop, then the padding and the solve; the array
    stored in [self.B].  [HH.shape] on [None] raises [AttributeError]. *)
Definition fit_arrays (sync_every : option nat)
    (shards : seq (shard R n_features_ n_outputs_))
  : exc 'M[R]_(n_columns include_original_features hidden_layers_,
               n_outputs_) :=
  '(acc, _) <- fit_loop sync_every shards ;;
  match acc with
  | None => Raise AttributeError
  | Some (HH, HY) => fit_solve alpha bsize_ solve HH HY
  end.

(** The rows of all the shards of a list in one shard. *)
Fixpoint merged_rows (shards : seq (shard R n_features_ n_outputs_)) : nat :=
  match shards with
  | [::] => 0
  | s :: shards' => tag s + merged_rows shards'
  end.

Fixpoint merged_X (shards : seq (shard R n_features_ n_outputs_))
  : 'M[R]_(merged_rows shards, n_features_) :=
  match shards with
  | [::] => 0
  | s :: shards' => col_mx (shard_X s) (merged_X shards')
  end.

Fixpoint merged_Y (shards : seq (shard R n_features_ n_outputs_))
  : 'M[R]_(merged_rows shards, n_outputs_) :=
  match shards with
  | [::] => 0
  | s :: shards' => col_mx (shard_Y s) (merged_Y shards')
  end.

Definition merged (shards : seq (shard R n_features_ n_outputs_))
  : shard R n_features_ n_outputs_ :=
  existT _ (merged_rows shards) (merged_X shards, merged_Y shards).

End ArraysFit.

(** What [sym_pos=True] at line 202 tells the solver: the matrix is
    symmetric and positive definite. *)
Definition sym_pos (R : realFieldType) (n : nat) (A : 'M[R]_n) : Prop :=
  A^T = A /\ forall v : 'rV[R]_n, v != 0 -> 0 < (v *m A *m v^T) 0 0.

(** A positive semidefinite matrix. *)
Definition pos_semidef (R : realFieldType) (n : nat) (A : 'M[R]_n) : Prop :=
  forall v : 'rV[R]_n, 0 <= (v *m A *m v^T) 0 0.

(** * Part II: theorems *)

(** ** Comparing exceptions and events *)

Lemma error_code_inj : injective error_code.
Proof. by do 2!case. Qed.

HB.instance Definition _ := Equality.copy error (inj_type error_code_inj).

Lemma event_code_inj : injective event_code.
Proof. by case=> [i|i|] [j|j|] //= [->]. Qed.

HB.instance Definition _ := Equality.copy event (inj_type event_code_inj).

(** ** The accumulation loop *)

Section LoopTheory.

Variables (shard acc : Type).

(** An engine whose operations do not raise: [f] is a shard's contribution
    and [g] the sum of two accumulators. *)
Variables (f : shard -> acc) (g : acc -> acc -> acc).

Let contribution (s : shard) : exc acc := Ok (f s).
Let iadd (a c : acc) : exc acc := Ok (g a c).

Lemma at_sync_Some (s i : nat) :
  (0 < s)%N -> at_sync (Some s) i = Ok (s %| i)%N.
Proof. by rewrite /at_sync /py_mod; case: s. Qed.

Lemma for_each_loop_body (sync_every : option nat) (l : seq shard)
    (a : acc) (log : seq event) (i : nat) :
  sync_every != Some 0%N ->
  for_each (loop_body contribution iadd sync_every) (Some a, log)
           (zip (iota i (size l)) l)
  = Ok (Some (foldl (fun a s => g a (f s)) a l),
        log ++ later_calls sync_every i (size l)).
Proof.
case: sync_every => [[|s]|] // _; rewrite /later_calls.
  elim: l a log i => [|x l IH] a log i /=; first by rewrite cats0.
  rewrite IH /sync_calls /dvdn.
  by case: (i %% s.+1 == 0)%N; rewrite /= -?cats1 -?catA.
by elim: l a log i => [|x l IH] a log i /=; rewrite ?IH cats0.
Qed.

Lemma accumulate_Ok (sync_every : option nat) (x : shard) (l : seq shard) :
  sync_every != Some 0%N ->
  accumulate contribution iadd sync_every (x :: l)
  = Ok (Some (foldl (fun a s => g a (f s)) (f x) l),
        sync_trace sync_every (size l).+1).
Proof.
case: sync_every => [[|s]|] // _; rewrite /accumulate /=.
  by rewrite (@for_each_loop_body (Some s.+1)) //= /later_calls -cats1.
by rewrite (@for_each_loop_body None).
Qed.

(** With [sync_every = 0] the first iteration raises at line 176. *)
Lemma accumulate_sync_every_0 (x : shard) (l : seq shard) :
  accumulate contribution iadd (Some 0%N) (x :: l) = Raise ZeroDivisionError.
Proof. by []. Qed.

(** On an empty list the loop leaves [HH] and [HY] at [None]. *)
Lemma accumulate_nil (sync_every : option nat) :
  accumulators (accumulate contribution iadd sync_every [::]) = Ok None.
Proof. by []. Qed.

End LoopTheory.

Section LoopErrors.

Variables (shard acc : Type).
Variable contribution : shard -> exc acc.
Variable iadd : acc -> acc -> exc acc.

(** A property of the exceptions of the engine and of [i % 0]. *)
Variable P : error -> Prop.
Hypothesis P_contribution : forall s e, contribution s = Raise e -> P e.
Hypothesis P_iadd : forall a c e, iadd a c = Raise e -> P e.
Hypothesis P_ZeroDivisionError : P ZeroDivisionError.

Lemma at_sync_Raise (sync_every : option nat) (i : nat) (e : error) :
  at_sync sync_every i = Raise e -> P e.
Proof.
by case: sync_every => [[|s]|] //=; rewrite /py_mod //= => -[<-].
Qed.

Lemma loop_body_Raise (sync_every : option nat)
    (st : option acc * seq event) (it : nat * shard) (e : error) :
  loop_body contribution iadd sync_every st it = Raise e -> P e.
Proof.
case: st it => [HH_HY log] [i s]; rewrite /loop_body.
case Ec: (contribution s) => [c|e'] /=; last by case=> <-; apply: P_contribution Ec.
case: HH_HY => [a|] /=.
  case Ea: (iadd a c) => [a'|e'] /=; last by case=> <-; apply: P_iadd Ea.
  by case Es: (at_sync sync_every i) => [b|e'] /=; [|case=> <-; apply: at_sync_Raise Es].
by case Es: (at_sync sync_every i) => [b|e'] /=; [|case=> <-; apply: at_sync_Raise Es].
Qed.

Lemma for_each_Raise {S T : Type} (body : S -> T -> exc S) (s : S)
    (l : seq T) (e : error) :
  (forall s x e, body s x = Raise e -> P e) ->
  for_each body s l = Raise e -> P e.
Proof.
move=> P_body; elim: l s => [|x l IH] s //=.
by case Eb: (body s x) => [s'|e'] /=; [apply: IH | case=> <-; apply: P_body Eb].
Qed.

Lemma accumulate_Raise (sync_every : option nat) (shards : seq shard)
    (e : error) :
  accumulate contribution iadd sync_every shards = Raise e -> P e.
Proof.
rewrite /accumulate.
case Ef: (for_each _ _ _) => [[a log]|e'] //= -[<-].
by apply: for_each_Raise Ef => st it e''; apply: loop_body_Raise.
Qed.

End LoopErrors.

Section LoopEq.

Variables (shard acc : Type).
Variables (contribution contribution' : shard -> exc acc).
Variable iadd : acc -> acc -> exc acc.

(** The loop only uses the contributions of the shards it is given. *)
Lemma eq_accumulate (sync_every : option nat) (shards : seq shard) :
  (forall s, contribution s = contribution' s) ->
  accumulate contribution iadd sync_every shards
  = accumulate contribution' iadd sync_every shards.
Proof.
move=> eq_c.
have eq_body st it :
    loop_body contribution iadd sync_every st it
    = loop_body contribution' iadd sync_every st it.
  by case: st it => [a log] [i x] /=; rewrite eq_c.
rewrite /accumulate; congr (bind _ _).
move: (None, [::]) (iota _ _) => st l.
elim: shards st l => [|x shards IH] st [|i l] //=.
by rewrite eq_body; case: (loop_body _ _ _ _ _) => [st'|e] //=.
Qed.

End LoopEq.

(** ** Arrays *)

Section ArraysTheory.

Variable R : fieldType.
Variables (n_features_ n_outputs_ : nat).
Variable include_original_features : bool.
Variable hidden_layers_ : seq (HiddenLayer R n_features_).
Variable alpha : R.
Variable bsize_ : nat.
Variable solve : forall n m : nat, 'M[R]_n -> 'M[R]_(n, m) -> 'M[R]_(n, m).
Variable B :
  'M[R]_(n_columns include_original_features hidden_layers_, n_outputs_).

Local Notation HiddenLayer := (HiddenLayer R n_features_).
Local Notation original_features :=
  (original_features include_original_features).
Local Notation n_columns :=
  (n_columns include_original_features hidden_layers_).
Local Notation H_dask := (H_dask include_original_features hidden_layers_).
Local Notation shard := (shard R n_features_ n_outputs_).
Local Notation HH_HY :=
  (HH_HY n_outputs_ include_original_features hidden_layers_).
Local Notation HtH := (HtH include_original_features hidden_layers_).
Local Notation HtY := (HtY include_original_features hidden_layers_).
Local Notation fit_accumulate :=
  (fit_accumulate include_original_features hidden_layers_).
Local Notation fit_loop :=
  (fit_loop include_original_features hidden_layers_ bsize_).
Local Notation rechunked_contribution :=
  (rechunked_contribution include_original_features hidden_layers_ bsize_).
Local Notation fit_solve := (fit_solve alpha bsize_ solve).
Local Notation shard_input := (shard_input R n_features_).
Local Notation Yh_dask := (Yh_dask B).
Local Notation predict_files := (predict_files B).
Local Notation predict_array := (predict_array B).

(** *** Padding *)

Lemma fit_padding_Ok (d : nat) :
  (0 < bsize_)%N ->
  fit_padding d bsize_
  = Ok (if (bsize_ < d)%N && (0 < d %% bsize_)%N
        then (bsize_ - d %% bsize_)%N else 0%N).
Proof.
rewrite /fit_padding /py_mod; case: bsize_ => // b _.
by case: (b.+1 < d)%N.
Qed.

(** Under the test of line 186 the padding is positive. *)
Lemma fit_padding_pos (d : nat) :
  (0 < bsize_)%N -> (0 < d %% bsize_)%N ->
  (0 < bsize_ - d %% bsize_)%N.
Proof. by move=> b_gt0 _; rewrite subn_gt0 ltn_mod. Qed.

(** The padded number of rows is a multiple of the batch size. *)
Lemma fit_padding_aligned (d : nat) :
  (0 < bsize_)%N -> (0 < d %% bsize_)%N ->
  (bsize_ %| d + (bsize_ - d %% bsize_))%N.
Proof.
move=> b_gt0 _; rewrite {1}(divn_eq d bsize_) -addnA subnKC.
  by rewrite ltnW // ltn_mod.
by rewrite dvdn_addl ?dvdn_mull.
Qed.

(** A solution of the padded, regularised system restricts to a solution of
    the regularised system: the added rows and columns are zero but for
    the diagonal term [alpha], which multiplies the added rows only. *)
Lemma padded_solution (d p : nat) (HH : 'M[R]_d) (HY : 'M[R]_(d, n_outputs_))
    (Bp : 'M[R]_(d + p, n_outputs_)) :
  (block_mx HH 0 0 0 + alpha *: 1%:M) *m Bp = col_mx HY 0 ->
  (HH + alpha *: 1%:M) *m usubmx Bp = HY.
Proof.
rewrite -{1}(vsubmxK Bp) !scale_scalar_mx mulr1 (scalar_mx_block d p alpha).
rewrite (add_block_mx HH 0 0 0) mul_block_col !addr0 !add0r mul0mx addr0.
by case/eq_col_mx.
Qed.

(** A nonsingular system has one solution. *)
Lemma unique_solution (n m : nat) (A : 'M[R]_n) (X X' Y : 'M[R]_(n, m)) :
  A \in unitmx -> A *m X = Y -> A *m X' = Y -> X = X'.
Proof.
by move=> A_unit eqX eqX'; rewrite -[X](mulKmx A_unit) eqX -eqX' mulKmx.
Qed.

(** With [alpha] not zero the padded system is nonsingular when the
    unpadded one is, so that a solver that is right on nonsingular systems
    is right on both. *)
Lemma padded_unitmx (d p : nat) (HH : 'M[R]_d) :
  alpha != 0 -> HH + alpha *: 1%:M \in unitmx ->
  (block_mx HH 0 0 0 + alpha *: 1%:M : 'M[R]_(d + p)) \in unitmx.
Proof.
move=> alpha_neq0; rewrite !scale_scalar_mx mulr1 => HH_unit.
rewrite (scalar_mx_block d p alpha) (add_block_mx HH 0 0 0) !addr0 add0r.
by rewrite block_diag_mx_unit HH_unit unitmxE det_scalar unitfE expf_neq0.
Qed.

(** *** Rows and columns of the design matrix *)

Lemma enum_ord_split (m n : nat) :
  enum 'I_(m + n)
  = [seq lshift n i | i <- enum 'I_m] ++ [seq @rshift m n i | i <- enum 'I_n].
Proof.
apply: (inj_map val_inj); rewrite map_cat -!map_comp.
rewrite (eq_map (_ : val \o lshift n =1 val)) //.
rewrite (eq_map (_ : val \o @rshift m n =1 addn m \o val)) //.
by rewrite (map_comp (addn m) val) -!enumT !val_enum_ord -iotaDl addn0 iotaD.
Qed.

Lemma row_entries_row_mx (r c1 c2 : nat) (A1 : 'M[R]_(r, c1))
    (A2 : 'M[R]_(r, c2)) (i : 'I_r) :
  row_entries (row_mx A1 A2) i = row_entries A1 i ++ row_entries A2 i.
Proof.
rewrite /row_entries enum_ord_split map_cat -!map_comp.
by congr (_ ++ _); apply: eq_map => j /=; rewrite ?row_mxEl ?row_mxEr.
Qed.

Lemma row_entries_ones (r : nat) (i : 'I_r) :
  row_entries (const_mx 1 : 'M[R]_(r, 1)) i = [:: 1].
Proof. by rewrite /row_entries enum_ordSl enum_ord0 /= mxE. Qed.

Lemma row_entries_original_features (r : nat) (X : 'M[R]_(r, n_features_))
    (i : 'I_r) :
  row_entries (original_features X) i
  = if include_original_features then row_entries X i else [::].
Proof.
rewrite /original_features /row_entries.
by case: include_original_features => //; rewrite enum_ord0.
Qed.

Lemma row_entries_hidden_blocks (r : nat) (X : 'M[R]_(r, n_features_))
    (hls : seq HiddenLayer) (i : 'I_r) :
  row_entries (hidden_blocks X hls) i
  = flatten [seq row_entries (H0 hl X) i | hl <- hls].
Proof.
elim: hls => [|hl hls IH] /=; first by rewrite /row_entries enum_ord0.
by rewrite row_entries_row_mx IH.
Qed.

(** *** The design matrix row by row *)

(** [pairwise_distances] works row by row: on stacked blocks of rows it is
    the stack of its results on the blocks.  This is what makes
    [map_blocks(pairwise_distances, ...)] independent of the chunks. *)
Lemma pairwise_distances_col_mx metric (r1 r2 k : nat)
    (X1 : 'M[R]_(r1, n_features_)) (X2 : 'M[R]_(r2, n_features_))
    (W : 'M[R]_(k, n_features_)) :
  pairwise_distances metric (col_mx X1 X2) W
  = col_mx (pairwise_distances metric X1 W) (pairwise_distances metric X2 W).
Proof.
apply/matrixP=> i j; rewrite !mxE.
case: (splitP i) => i' def_i; rewrite mxE.
  have -> : i = lshift r2 i' by apply: val_inj.
  by rewrite rowKu.
have -> : i = rshift r1 i' by apply: val_inj.
by rewrite rowKd.
Qed.

Lemma H0_col_mx (hl : HiddenLayer) (r1 r2 : nat)
    (X1 : 'M[R]_(r1, n_features_)) (X2 : 'M[R]_(r2, n_features_)) :
  H0 hl (col_mx X1 X2) = col_mx (H0 hl X1) (H0 hl X2).
Proof.
rewrite /H0; case: (is_PAIRWISE _); first exact: pairwise_distances_col_mx.
by rewrite mul_col_mx map_col_mx.
Qed.

Lemma row_mx_col_mx (r1 r2 c1 c2 : nat) (A : 'M[R]_(r1, c1))
    (A' : 'M[R]_(r1, c2)) (C : 'M[R]_(r2, c1)) (C' : 'M[R]_(r2, c2)) :
  row_mx (col_mx A C) (col_mx A' C') = col_mx (row_mx A A') (row_mx C C').
Proof. by rewrite -block_mxEh block_mxEv. Qed.

Lemma original_features_col_mx (r1 r2 : nat)
    (X1 : 'M[R]_(r1, n_features_)) (X2 : 'M[R]_(r2, n_features_)) :
  original_features (col_mx X1 X2)
  = col_mx (original_features X1) (original_features X2).
Proof.
rewrite /original_features.
by case: include_original_features => //; rewrite col_mx0.
Qed.

Lemma hidden_blocks_col_mx (hls : seq HiddenLayer) (r1 r2 : nat)
    (X1 : 'M[R]_(r1, n_features_)) (X2 : 'M[R]_(r2, n_features_)) :
  hidden_blocks (col_mx X1 X2) hls
  = col_mx (hidden_blocks X1 hls) (hidden_blocks X2 hls).
Proof.
elim: hls => [|hl hls IH] /=; first by rewrite col_mx0.
by rewrite IH H0_col_mx row_mx_col_mx.
Qed.

Lemma H_dask_col_mx (r1 r2 : nat)
    (X1 : 'M[R]_(r1, n_features_)) (X2 : 'M[R]_(r2, n_features_)) :
  H_dask (col_mx X1 X2) = col_mx (H_dask X1) (H_dask X2).
Proof.
rewrite /H_dask original_features_col_mx hidden_blocks_col_mx.
by rewrite row_mx_col_mx -(col_mx_const r1 r2) row_mx_col_mx.
Qed.

(** The two modes of [predict] build the same blocks. *)
Lemma transforms_hidden_blocks (r : nat) (X : 'M[R]_(r, n_features_))
    (hls : seq HiddenLayer) :
  transforms X hls = hidden_blocks X hls.
Proof. by elim: hls => [|hl hls IH] //=; rewrite IH. Qed.

Lemma Yh_dask_stack_rows (Xs : seq shard_input) :
  Yh_dask Xs = H_dask (stack_rows Xs) *m B.
Proof.
elim: Xs => [|X Xs IH] /=; first by rewrite [_ *m _]flatmx0.
by rewrite H_dask_col_mx mul_col_mx IH.
Qed.

(** *** The loop on arrays *)

Lemma foldl_HH_HY (a : HH_HY) (l : seq shard) :
  foldl (fun a s => (a.1 + HtH s, a.2 + HtY s)) a l
  = (a.1 + \sum_(s <- l) HtH s, a.2 + \sum_(s <- l) HtY s).
Proof.
elim: l a => [|s l IH] [HH HY] /=; first by rewrite !big_nil !addr0.
by rewrite IH !big_cons /= !addrA.
Qed.

Lemma fit_accumulate_Ok (sync_every : option nat) (x : shard)
    (l : seq shard) :
  sync_every != Some 0%N ->
  fit_accumulate sync_every (x :: l)
  = Ok (Some (\sum_(s <- x :: l) HtH s, \sum_(s <- x :: l) HtY s),
        sync_trace sync_every (size l).+1).
Proof.
move=> sync_ok; rewrite /fit_accumulate.
rewrite (accumulate_Ok (fun s => (HtH s, HtY s))
                       (fun a c => (a.1 + c.1, a.2 + c.2))) //.
by rewrite foldl_HH_HY !big_cons.
Qed.

(** *** The properties *)

(** C8. The design matrix of a shard is the column-wise concatenation of a
    column of ones, the raw input columns if and only if
    [include_original_features] is set, and one block per hidden layer, in
    the order of the layers: every row of [H_dask] is 1, then the row of
    [X] (or nothing), then the rows of the blocks.  An entry of the block
    of a pairwise layer is the distance between the row of the shard and a
    row of the layer's reference points; an entry of the block of any
    other layer is the layer's nonlinearity applied to the entry of the
    product of the shard and the transposed projection. *)
Theorem H_dask_is_concatenation (r : nat) (X : 'M[R]_(r, n_features_))
    (i : 'I_r) :
  row_entries (H_dask X) i
  = 1 :: (if include_original_features then row_entries X i else [::])
      ++ flatten [seq row_entries (H0 hl X) i | hl <- hidden_layers_]
  /\ forall (hl : HiddenLayer) (j : 'I_(n_neurons hl)),
       H0 hl X i j
       = if is_PAIRWISE (hidden_layer_ hl)
         then pairwise_metric hl (row i X) (row j (components_ hl))
         else ufunc_ hl (\sum_k X i k * components_ hl j k).
Proof.
split.
  rewrite /H_dask !row_entries_row_mx row_entries_ones.
  by rewrite row_entries_original_features row_entries_hidden_blocks.
move=> hl j; rewrite /H0; case: (is_PAIRWISE _); rewrite !mxE //.
by congr (ufunc_ hl _); apply: eq_bigr => k _; rewrite mxE.
Qed.

(** With a positive batch size the [rechunk] of line 165 returns, and the
    loop is the loop on the design matrices as they are. *)
Lemma fit_loop_pos (sync_every : option nat) (shards : seq shard) :
  (0 < bsize_)%N ->
  fit_loop sync_every shards = fit_accumulate sync_every shards.
Proof.
move=> b_gt0; apply: eq_accumulate => s.
have /negbTE b_neq0 : bsize_ != 0%N by rewrite -lt0n.
by rewrite /rechunked_contribution /rechunk b_neq0.
Qed.

(** C3. With a positive batch size, after the loop over a non-empty list
    of shards the accumulators are the sums over the shards: [HH] is the
    sum of the [H^T H] and [HY] the sum of the [H^T Y], where [H] is the
    design matrix of the shard and [Y] its targets; and the same shards in
    any other order (and with any other synchronisation interval) give the
    same [HH] and [HY]. *)
Theorem accumulators_are_sums (sync_every sync_every' : option nat)
    (shards shards' : seq shard) :
  (0 < bsize_)%N -> shards != [::] ->
  sync_every != Some 0%N -> sync_every' != Some 0%N ->
  perm_eq shards shards' ->
  accumulators (fit_loop sync_every shards)
  = Ok (Some
          (\sum_(s <- shards) (H_dask (shard_X s))^T *m H_dask (shard_X s),
           \sum_(s <- shards) (H_dask (shard_X s))^T *m shard_Y s))
  /\ accumulators (fit_loop sync_every' shards')
     = accumulators (fit_loop sync_every shards).
Proof.
move=> b_gt0; rewrite !fit_loop_pos //.
case: shards => [|x l] // _ sync_ok sync_ok' perm_shards.
case: shards' perm_shards => [|x' l'] perm_shards.
  by move/perm_size: perm_shards.
rewrite !fit_accumulate_Ok //= /HtH /HtY; split=> //.
by rewrite !(perm_big _ perm_shards).
Qed.


(** C1. For a design matrix of [d] columns, [d] not a multiple of the batch
    size: when the solver returns a solution of the zero-padded,
    regularised system, its first [d] rows are the solution of the
    regularised system without padding, the one the solver returns for
    it; and this is the [B] that [fit] computes. *)
Theorem padding_preserves_solution (d : nat) (HH : 'M[R]_d)
    (HY : 'M[R]_(d, n_outputs_)) :
  (0 < bsize_)%N -> (d %% bsize_ != 0)%N ->
  let padding := (bsize_ - d %% bsize_)%N in
  let HH_padded : 'M[R]_(d + padding) :=
    block_mx HH 0 0 0 + alpha *: 1%:M in
  let HY_padded : 'M[R]_(d + padding, n_outputs_) := col_mx HY 0 in
  let HH_reg := HH + alpha *: 1%:M in
  HH_padded *m solve HH_padded HY_padded = HY_padded ->
  HH_reg \in unitmx -> HH_reg *m solve HH_reg HY = HY ->
  usubmx (solve HH_padded HY_padded) = solve HH_reg HY
  /\ fit_solve HH HY = Ok (solve HH_reg HY).
Proof.
move=> b_gt0 d_mod padding HHp HYp HHr solved_p HHr_unit solved.
have eqB : usubmx (solve HHp HYp) = solve HHr HY.
  exact: unique_solution HHr_unit (padded_solution solved_p) solved.
split=> //; rewrite /fit_solve fit_padding_Ok //=.
have -> : (0 < d %% bsize_)%N by rewrite lt0n.
case: (bsize_ < d)%N => //=.
by rewrite subn_gt0 ltn_mod b_gt0 eqB.
Qed.


End ArraysTheory.

(** *** The properties at concrete arrays *)

Lemma accumulators_are_sums_witness :
  let shards := [:: shard_1x1; shard_2x1; shard_1x1] in
  let shards' := [:: shard_2x1; shard_1x1; shard_1x1] in
  accumulators (fit_loop true layers_1 2 (Some 1%N) shards)
  = Ok (Some
          (\sum_(s <- shards)
              (H_dask true layers_1 (shard_X s))^T
              *m H_dask true layers_1 (shard_X s),
           \sum_(s <- shards)
              (H_dask true layers_1 (shard_X s))^T *m shard_Y s))
  /\ accumulators (fit_loop true layers_1 2 None shards')
     = accumulators (fit_loop true layers_1 2 (Some 1%N) shards).
Proof.
move=> shards shards'.
have perm_shards : perm_eq shards shards'.
  by rewrite /shards /shards' (perm_catCA [:: shard_1x1] [:: shard_2x1]).
exact: (@accumulators_are_sums rat 1 1 true layers_1 2 (Some 1%N) None
          shards shards' (erefl _) (erefl _) (erefl _) (erefl _)
          perm_shards).
Defined.



Lemma padding_preserves_solution_witness :
  let HH : 'M[rat]_3 := 1%:M in
  let HY : 'M[rat]_(3, 1) := const_mx 1 in
  usubmx (exact_solve (block_mx HH 0 0 0 + 1 *: 1%:M : 'M_(3 + 1))
                      (col_mx HY 0))
  = exact_solve (HH + 1 *: 1%:M) HY
  /\ fit_solve 1 2 exact_solve HH HY
     = Ok (exact_solve (HH + 1 *: 1%:M) HY).
Proof.
move=> HH HY.
have unit_r : HH + 1 *: 1%:M \in unitmx.
  by rewrite scale1r -raddfD unitmxE det_scalar unitfE expf_neq0.
apply: (@padding_preserves_solution rat 1 1 2 exact_solve 3 HH HY) => //.
  by rewrite /exact_solve mulKVmx // padded_unitmx.
by rewrite /exact_solve mulKVmx.
Defined.


(** ** Estimator *)

Section EstimatorTheory.

Variable fname : Type.
Variable read_parquet : fname -> option shape.
Variable LocalCluster : LargeELMRegressor -> bool.
Variable Client : LargeELMRegressor -> bool.
Variable engine_sample : LargeELMRegressor -> shape -> bool.
Variable _init_hidden_layers :
  LargeELMRegressor -> shape
  -> option (seq (HiddenLayerType * shape)) * bool.
Variable engine_from_array : seq (HiddenLayerType * shape) -> bool.
Variable engine_contribution :
  LargeELMRegressor -> shape -> shape -> option (shape * shape).
Variable engine_iadd : shape * shape -> shape * shape -> option (shape * shape).
Variable engine_solve :
  LargeELMRegressor -> shape * shape -> nat -> option shape.
Variable engine_compute : LargeELMRegressor -> shape * shape -> bool.
Variable engine_predict : LargeELMRegressor -> shape -> option shape.
Variable engine_concatenate : seq shape -> option shape.
Variable numpy_predict : LargeELMRegressor -> shape -> option shape.

Local Notation argument := (argument fname).
Local Notation ndarray := (ndarray fname).
Local Notation fit_call := (fit_call fname).
Local Notation fit_checks := (fit_checks read_parquet).
Local Notation fit_init :=
  (fit_init LocalCluster Client engine_sample _init_hidden_layers).
Local Notation fit_W_dask := (fit_W_dask engine_from_array).
Local Notation file_contribution :=
  (file_contribution read_parquet engine_contribution).
Local Notation fit_B :=
  (fit_B read_parquet engine_contribution engine_iadd engine_solve).
Local Notation fit :=
  (fit read_parquet LocalCluster Client engine_sample _init_hidden_layers
     engine_from_array engine_contribution engine_iadd engine_solve
     engine_compute).
Local Notation fit_of :=
  (fit_of read_parquet LocalCluster Client engine_sample _init_hidden_layers
     engine_from_array engine_contribution engine_iadd engine_solve
     engine_compute).
Local Notation fit_all :=
  (fit_all read_parquet LocalCluster Client engine_sample _init_hidden_layers
     engine_from_array engine_contribution engine_iadd engine_solve
     engine_compute).
Local Notation all_raised :=
  (all_raised read_parquet LocalCluster Client engine_sample _init_hidden_layers
     engine_from_array engine_contribution engine_iadd engine_solve
     engine_compute).
Local Notation predict :=
  (predict read_parquet engine_predict engine_concatenate numpy_predict).

(** ** What [fit] changes *)

(** The exceptions of the loop, the padding and the solve are not the
    shape-mismatch errors. *)
Lemma fit_B_Raise (self : LargeELMRegressor) (bsize : nat) (X y : seq fname)
    (sync_every : option nat) (e : error) :
  fit_B self bsize X y sync_every = Raise e -> ~~ shape_mismatch e.
Proof.
rewrite /fit_B.
case Ea: (accumulate _ _ _ _) => [[[[HH HY]|] log]|e'] /=; last first.
- case=> <-; apply: (accumulate_Raise (P := fun e => ~~ shape_mismatch e)) Ea => //.
    move=> [Xf yf] e''; rewrite /file_contribution.
    case: (read_parquet Xf) => [X_dask|] /=; last by case=> <-.
    case: (read_parquet yf) => [Y_dask|] /=; last by case=> <-.
    by case: (engine_contribution _ _ _) => [c|] //= -[<-].
  by move=> a c e''; case: (engine_iadd a c) => [a'|] //= -[<-].
- by case=> <-.
rewrite /fit_padding /py_mod.
case: ifP => _ /=; last by case: (engine_solve _ _ _) => [b|] //= -[<-].
case: ifP => _ /=; first by case=> <-.
by case: (engine_solve _ _ _) => [b|] //= -[<-].
Qed.

(** A call whose checks raise leaves the estimator as it is. *)
Lemma fit_checks_Raise (self : LargeELMRegressor) (X y : argument)
    (sync_every : option nat) (e : error) :
  fit_checks self X y = Raise e -> fit self X y sync_every = (self, Raise e).
Proof. by rewrite /fit => ->. Qed.

(** *** The initialisation *)

(** What the initialisation leaves as it is. *)
Lemma fit_init_frame (self : LargeELMRegressor) (n f o : nat) :
  let self' := (fit_init self n f o).1 in
  [/\ batch_size self' = batch_size self, bsize_ self' = bsize_ self,
      is_fitted_ self' = is_fitted_ self & B self' = B self].
Proof.
rewrite /fit_init; case: (hidden_layers_ self) => [hls|] //=.
case: (LocalCluster _) => //=; case: (Client _) => //=.
by case: (engine_sample _ _) => //=; case: (_init_hidden_layers _ _).
Qed.

(** With hidden layers the initialisation is skipped. *)
Lemma fit_init_skipped (self : LargeELMRegressor) (n f o : nat)
    (hls : seq (HiddenLayerType * shape)) :
  hidden_layers_ self = Some hls -> fit_init self n f o = (self, Ok tt).
Proof. by rewrite /fit_init => ->. Qed.

(** Without hidden layers the initialisation records the schema, whether
    it returns or raises. *)
Lemma fit_init_schema (self : LargeELMRegressor) (n f o : nat) :
  hidden_layers_ self = None ->
  let self' := (fit_init self n f o).1 in
  n_features_ self' = Some f /\ n_outputs_ self' = Some o.
Proof.
rewrite /fit_init => -> /=.
case: (LocalCluster _) => //=; case: (Client _) => //=.
by case: (engine_sample _ _) => //=; case: (_init_hidden_layers _ _).
Qed.

(** The exceptions of the initialisation and of line 138 are not the
    shape-mismatch errors. *)
Lemma fit_init_Raise (self : LargeELMRegressor) (n f o : nat) (e : error) :
  (fit_init self n f o).2 = Raise e -> ~~ shape_mismatch e.
Proof.
rewrite /fit_init; case: (hidden_layers_ self) => [hls|] //=.
case: (LocalCluster _) => /=; last by case=> <-.
case: (Client _) => /=; last by case=> <-.
case: (engine_sample _ _) => /=; last by case=> <-.
by case: (_init_hidden_layers _ _) => hls [] //= -[<-].
Qed.

Lemma fit_W_dask_Raise (self : LargeELMRegressor) (e : error) :
  fit_W_dask self = Raise e -> ~~ shape_mismatch e.
Proof.
rewrite /fit_W_dask; case: (hidden_layers_ self) => [hls|]; last by case=> <-.
by case: (engine_from_array hls) => // -[<-].
Qed.

Lemma fit_W_dask_Ok (self : LargeELMRegressor) :
  fit_W_dask self = Ok tt -> isSome (hidden_layers_ self).
Proof. by rewrite /fit_W_dask; case: (hidden_layers_ self). Qed.

(** *** The ways a call ends *)

(** The estimator after a call, by the way the call ends: in the checks,
    between the checks and [self.B = B], at line 208, or by returning. *)
Lemma fit_cases (self : LargeELMRegressor) (X y : argument)
    (sync_every : option nat) :
  let r := fit self X y sync_every in
  (exists2 e, fit_checks self X y = Raise e & r = (self, Raise e))
  \/ exists n f o,
       let init :=
         fit_init (set_bsize_ self (fit_bsize (batch_size self) n)) n f o in
       fit_checks self X y = Ok (n, f, o)
       /\ [\/ exists2 e, r = (init.1, Raise e) & ~~ shape_mismatch e,
              exists b, r = (set_B init.1 b, Raise EngineError)
            | exists b,
                [/\ r = (set_is_fitted_ (set_B init.1 b), Ok tt),
                    init.2 = Ok tt & fit_W_dask init.1 = Ok tt]].
Proof.
rewrite /fit; case Ec: (fit_checks self X y) => [[[n f] o]|e]; last first.
  by left; exists e.
right; exists n, f, o; split=> //.
have := @fit_init_Raise (set_bsize_ self (fit_bsize (batch_size self) n)) n f o.
case: (fit_init _ _ _ _) => [self' [[]|e]] /= init_raise; last first.
  by constructor 1; exists e => //; apply: init_raise.
case EW: (fit_W_dask self') => [[]|e] /=; last first.
  by constructor 1; exists e => //; apply: fit_W_dask_Raise EW.
case EB: (fit_B _ _ _ _ _) => [[b hh]|e] /=.
  by case: (engine_compute _ _); [constructor 3 | constructor 2]; exists b.
by constructor 1; exists e => //; apply: fit_B_Raise EB.
Qed.

(** The attributes after the two steps that follow the checks. *)
Lemma fit_init_attributes (self : LargeELMRegressor) (b n f o : nat) :
  let self' := (fit_init (set_bsize_ self b) n f o).1 in
  [/\ batch_size self' = batch_size self, bsize_ self' = Some b,
      is_fitted_ self' = is_fitted_ self & B self' = B self].
Proof. by have [] := fit_init_frame (set_bsize_ self b) n f o. Qed.

Lemma fit_batch_size (self : LargeELMRegressor) (X y : argument)
    (sync_every : option nat) :
  batch_size (fit self X y sync_every).1 = batch_size self.
Proof.
case: (fit_cases self X y sync_every) => [[e _ ->] //|[n [f [o /= [_]]]]].
have [E _ _ _] := fit_init_attributes self (fit_bsize (batch_size self) n) n f o.
by case=> [[e -> _]|[b ->]|[b [-> _ _]]].
Qed.

(** A call whose checks pass sets [bsize_]. *)
Lemma fit_bsize_ (self : LargeELMRegressor) (X y : argument)
    (sync_every : option nat) (n f o : nat) :
  fit_checks self X y = Ok (n, f, o) ->
  bsize_ (fit self X y sync_every).1 = Some (fit_bsize (batch_size self) n).
Proof.
move=> checks.
case: (fit_cases self X y sync_every) => [[e]|[n1 [f1 [o1 /= []]]]].
  by rewrite checks.
rewrite checks => -[<- <- <-].
have [_ E _ _] := fit_init_attributes self (fit_bsize (batch_size self) n) n f o.
by case=> [[e -> _]|[b ->]|[b [-> _ _]]].
Qed.

(** With a configured batch size, no call changes a [bsize_] equal to it. *)
Lemma fit_bsize_configured (self : LargeELMRegressor) (X y : argument)
    (sync_every : option nat) (b : nat) :
  batch_size self = Some b -> bsize_ self = Some b ->
  bsize_ (fit self X y sync_every).1 = Some b.
Proof.
move=> cfg set_b; case Ec: (fit_checks self X y) => [[[n f] o]|e].
  by rewrite (fit_bsize_ _ Ec) cfg.
by rewrite (fit_checks_Raise _ Ec).
Qed.

Lemma fit_all_bsize_configured (self : LargeELMRegressor)
    (calls : seq fit_call) (b : nat) :
  batch_size self = Some b -> bsize_ self = Some b ->
  bsize_ (fit_all self calls) = Some b.
Proof.
elim: calls self => [|c calls IH] self //= cfg set_b.
by apply: IH; rewrite /fit_of ?fit_batch_size //; apply: fit_bsize_configured.
Qed.

(** A call that raises leaves [is_fitted_] as it is. *)
Lemma fit_raised_is_fitted_ (self : LargeELMRegressor) (X y : argument)
    (sync_every : option nat) :
  raised (fit self X y sync_every).2 ->
  is_fitted_ (fit self X y sync_every).1 = is_fitted_ self.
Proof.
case: (fit_cases self X y sync_every) => [[e _ ->] //|[n [f [o /= [_]]]]].
have [_ _ E _] := fit_init_attributes self (fit_bsize (batch_size self) n) n f o.
by case=> [[e -> _]|[b ->]|[b [-> _ _]]].
Qed.

Lemma all_raised_is_fitted_ (self : LargeELMRegressor)
    (calls : seq fit_call) :
  all_raised self calls -> is_fitted_ (fit_all self calls) = is_fitted_ self.
Proof.
elim: calls self => [|c calls IH] self //= /andP[c_raised rest].
by rewrite IH // /fit_of fit_raised_is_fitted_.
Qed.

(** *** The recorded schema *)

Lemma fit_init_initialised (self : LargeELMRegressor) (n f o : nat) :
  initialised self -> initialised (fit_init self n f o).1.
Proof.
move=> init_self.
case E: (hidden_layers_ self) => [hls|]; first by rewrite (fit_init_skipped _ _ _ E).
have [_ _ fitted_eq _] := fit_init_frame self n f o.
have [rec_f rec_o] := fit_init_schema n f o E.
move: init_self; rewrite /initialised fitted_eq rec_f rec_o E /= implybT andbT.
by rewrite implybF => /negbTE ->.
Qed.

Lemma fit_initialised (self : LargeELMRegressor) (X y : argument)
    (sync_every : option nat) :
  initialised self -> initialised (fit self X y sync_every).1.
Proof.
move=> init_self.
case: (fit_cases self X y sync_every) => [[e _ ->] //|[n [f [o /= [_]]]]].
set self1 := set_bsize_ self _.
have init1 : initialised self1 by [].
have init2 := fit_init_initialised n f o init1.
case=> [[e -> _]|[b ->]|[b [-> _ /fit_W_dask_Ok layers]]] //=.
by move: init2 layers; rewrite /initialised /= => /andP[_ ->] ->.
Qed.

Lemma fit_all_initialised (self : LargeELMRegressor) (calls : seq fit_call) :
  initialised self -> initialised (fit_all self calls).
Proof.
elim: calls self => [|c calls IH] self //= init_self.
by apply: IH; apply: fit_initialised.
Qed.

Lemma fitted_schema (batch_size0 : option nat) (iof : bool)
    (calls : seq fit_call) :
  let self := fit_all (unfitted batch_size0 iof) calls in
  is_fitted_ self ->
  exists nf no, n_features_ self = Some nf /\ n_outputs_ self = Some no.
Proof.
move=> self fitted.
have : initialised self by apply: fit_all_initialised.
rewrite /initialised fitted /=.
case: (hidden_layers_ self) => //= _.
case: (n_features_ self) => [nf|] //=; case: (n_outputs_ self) => [no|] //= _.
by exists nf, no.
Qed.

(** The checks on lists of files whose first files can be read. *)
Lemma fit_checks_first_shard (self : LargeELMRegressor) (X0 y0 : fname)
    (Xs ys : seq fname) (n f r o : nat) :
  size Xs = size ys ->
  read_parquet X0 = Some (n, f) -> read_parquet y0 = Some (r, o) ->
  fit_checks self (list_of_strings (X0 :: Xs)) (list_of_strings (y0 :: ys))
  = if (if n_features_ self is Some n' then n' != f else false)
    then Raise ValueError_input_shape
    else if (if n_outputs_ self is Some n' then n' != o else false)
    then Raise ValueError_output_shape
    else Ok (n, f, o).
Proof.
by move=> eq_size rX ry; rewrite /fit_checks /= eqSS eq_size eqxx /= rX ry.
Qed.

(** ** The properties *)

(** C4, in the form that holds of the code. When no batch size is configured, a call of [fit] whose
    checks pass sets the batch size from the row count of shard 0: to the
    row count itself when it is below 10,000, and to 2000 otherwise; the
    default batch size is below 10,000. *)
Theorem default_batch_size (self : LargeELMRegressor) (X y : argument)
    (sync_every : option nat) (n_samples n_features n_outputs : nat) :
  batch_size self = None ->
  fit_checks self X y = Ok (n_samples, n_features, n_outputs) ->
  (exists X0 : fname,
      item0 (files_of X) = Ok X0
      /\ read_parquet X0 = Some (n_samples, n_features))
  /\ bsize_ (fit self X y sync_every).1
     = Some (if (n_samples < 10 * 1000)%N then n_samples else 2000%N)
  /\ (default_bsize n_samples < 10 * 1000)%N.
Proof.
move=> no_cfg checks; split; last split.
- move: checks; rewrite /fit_checks.
  case: ifP => // _; case: ifP => // _.
  case: (files_of X) => [|X0 Xs] //=.
  case rX: (read_parquet X0) => [[n f]|] //=.
  case: (item0 _) => [y0|] //=; case: (read_parquet y0) => [[r o]|] //=.
  by do 2!case: ifP => // _; case=> <- <- _; exists X0.
- by rewrite (fit_bsize_ _ checks) no_cfg.
- by rewrite /default_bsize; case: ifP.
Qed.

(** C5, in the form that holds of the code. Every call of [fit] whose checks pass sets the stored
    batch size anew: to the configured batch size, or with none configured
    to the default for the row count of shard 0 of that call.  With a
    configured batch size the stored value is therefore the same after
    every later call of [fit]. *)
Theorem batch_size_set_by_every_fit (self : LargeELMRegressor)
    (X y : argument) (sync_every : option nat)
    (n_samples n_features n_outputs : nat) :
  fit_checks self X y = Ok (n_samples, n_features, n_outputs) ->
  let self1 := (fit self X y sync_every).1 in
  bsize_ self1 = Some (fit_bsize (batch_size self) n_samples)
  /\ forall (b : nat) (calls : seq fit_call),
       batch_size self = Some b -> bsize_ (fit_all self1 calls) = Some b.
Proof.
move=> checks self1; have set1 := fit_bsize_ sync_every checks.
split=> // b calls cfg; apply: fit_all_bsize_configured.
  by rewrite fit_batch_size.
by rewrite set1 cfg.
Qed.

(** C6. On a fitted estimator, a call of [fit] with a first shard whose
    feature count or output count differs from the recorded one raises a
    shape-mismatch error and leaves the estimator, and so its recorded
    feature and output counts, as it was. *)
Theorem fit_shape_mismatch (batch_size0 : option nat) (iof : bool)
    (calls : seq fit_call) :
  let self := fit_all (unfitted batch_size0 iof) calls in
  is_fitted_ self ->
  exists nf no : nat,
    [/\ n_features_ self = Some nf, n_outputs_ self = Some no
      & forall (X0 y0 : fname) (Xs ys : seq fname) (sync_every : option nat)
               (n f r o : nat),
          size Xs = size ys ->
          read_parquet X0 = Some (n, f) -> read_parquet y0 = Some (r, o) ->
          (f != nf) || (o != no) ->
          exists2 e, shape_mismatch e
            & fit self (list_of_strings (X0 :: Xs))
                  (list_of_strings (y0 :: ys)) sync_every
              = (self, Raise e)].
Proof.
move=> self fitted; have [nf [no [rec_f rec_o]]] := fitted_schema fitted.
exists nf, no; split=> // X0 y0 Xs ys sync_every n f r o eq_size rX ry differs.
have := fit_checks_first_shard self eq_size rX ry.
rewrite -/self rec_f rec_o [nf == f]eq_sym [no == o]eq_sym.
case: (f =P nf) differs => [_ /= ->|_ _] checks.
  by exists ValueError_output_shape; rewrite ?(fit_checks_Raise _ checks).
by exists ValueError_input_shape; rewrite ?(fit_checks_Raise _ checks).
Qed.

(** C7. On an estimator on which no call of [fit] has returned, [predict]
    raises the not-fitted error, on a list of files and on an array. *)
Theorem predict_not_fitted (batch_size0 : option nat) (iof : bool)
    (calls : seq fit_call) :
  all_raised (unfitted batch_size0 iof) calls ->
  let self := fit_all (unfitted batch_size0 iof) calls in
  (forall files : seq fname,
      predict self (list_of_strings files) = Raise NotFittedError)
  /\ (forall s : shape, predict self (ndarray s) = Raise NotFittedError).
Proof.
move=> /all_raised_is_fitted_ not_fitted self.
by rewrite /predict /check_is_fitted /self not_fitted.
Qed.

(** C10. In a call of [fit] on lists of files, only the first shard is
    compared with the recorded schema: the call raises a shape-mismatch
    error exactly when the feature or output count of the first shard
    differs from the recorded one, whatever the later shards are.  So a
    later shard with another feature or output count does not raise the
    shape-mismatch error. *)
Theorem later_shards_not_checked (self : LargeELMRegressor)
    (X0 y0 : fname) (Xs ys : seq fname) (sync_every : option nat)
    (n f r o : nat) :
  size Xs = size ys ->
  read_parquet X0 = Some (n, f) -> read_parquet y0 = Some (r, o) ->
  let outcome :=
    (fit self (list_of_strings (X0 :: Xs)) (list_of_strings (y0 :: ys))
         sync_every).2 in
  (exists2 e, shape_mismatch e & outcome = Raise e)
  <-> schema_differs self f o.
Proof.
move=> eq_size rX ry outcome.
have := fit_checks_first_shard self eq_size rX ry.
rewrite /outcome /schema_differs.
case: ifP => [_|_] checks.
  rewrite (fit_checks_Raise _ checks) /=.
  by split=> // _; exists ValueError_input_shape.
case: ifP checks => [_|_] checks.
  rewrite (fit_checks_Raise _ checks) /=.
  by split=> // _; exists ValueError_output_shape.
split=> // -[e mismatch].
case: (fit_cases self (list_of_strings (X0 :: Xs))
         (list_of_strings (y0 :: ys)) sync_every) => [[e']|].
  by rewrite checks.
case=> n1 [f1 [o1 /= [_]]].
case=> [[e' -> not_mismatch]|[b ->]|[b [-> _ _]]] //= -[e_eq].
  by rewrite e_eq mismatch in not_mismatch.
by rewrite -e_eq in mismatch.
Qed.

End EstimatorTheory.

(** *** The properties on concrete files *)

Lemma fitted_on_100_rows_attributes :
  [/\ is_fitted_ fitted_on_100_rows,
      n_features_ fitted_on_100_rows = Some 3%N,
      n_outputs_ fitted_on_100_rows = Some 1%N,
      bsize_ fitted_on_100_rows = Some 100%N
    & B fitted_on_100_rows = Some (9, 1)%N].
Proof. by split; vm_compute. Qed.

(** C4 fails on a first shard of 5000 rows: the batch size is set
    to 5000, which is not [min(5000, 2000)] and exceeds 2000. *)
Lemma default_batch_size_above_2000 :
  let run := example_fit (unfitted None true) (list_of_strings [:: 4%N])
                         (list_of_strings [:: 5%N]) (Some 10%N) in
  [/\ run.2 = Ok tt, example_read 4 = Some (5000, 3)%N
    & bsize_ run.1 = Some 5000%N]
  /\ [/\ (5000 < 10 * 1000)%N, minn 5000 2000 <> 5000%N & (2000 < 5000)%N].
Proof. by do !split; vm_compute. Qed.

(** C5 fails with no batch size configured: a first call on a
    shard of 100 rows stores the batch size 100, and a second call on a
    shard of 500 rows replaces it by 500. *)
Lemma batch_size_changed_by_second_fit :
  let first := example_fit (unfitted None true) (list_of_strings [:: 0%N])
                           (list_of_strings [:: 1%N]) (Some 10%N) in
  let second := example_fit first.1 (list_of_strings [:: 2%N])
                            (list_of_strings [:: 3%N]) (Some 10%N) in
  [/\ first.2 = Ok tt, bsize_ first.1 = Some 100%N,
      second.2 = Ok tt & bsize_ second.1 = Some 500%N].
Proof. by split; vm_compute. Qed.

Lemma default_batch_size_witness :
  let self := unfitted None true in
  let X := list_of_strings [:: 0%N] in
  let y := list_of_strings [:: 1%N] in
  (exists X0 : nat,
      item0 (files_of X) = Ok X0 /\ example_read X0 = Some (100, 3)%N)
  /\ bsize_ (example_fit self X y (Some 10%N)).1
     = Some (if (100 < 10 * 1000)%N then 100%N else 2000%N)
  /\ (default_bsize 100 < 10 * 1000)%N.
Proof.
move=> self X y.
exact: (@default_batch_size nat example_read example_LocalCluster example_Client
          example_sample example_init example_from_array
          example_contribution example_iadd example_solve example_compute
          self X y (Some 10%N) 100 3 1 (erefl _) (erefl _)).
Defined.

Lemma batch_size_set_by_every_fit_witness :
  let self := unfitted (Some 50%N) true in
  let self1 :=
    (example_fit self (list_of_strings [:: 0%N]) (list_of_strings [:: 1%N])
                 (Some 10%N)).1 in
  bsize_ self1 = Some (fit_bsize (Some 50%N) 100)
  /\ forall (b : nat) (calls : seq (fit_call nat)),
       Some 50%N = Some b ->
       bsize_ (fit_all example_read example_LocalCluster example_Client
                 example_sample example_init example_from_array
                 example_contribution example_iadd example_solve
                 example_compute self1 calls)
       = Some b.
Proof.
move=> self self1.
exact: (@batch_size_set_by_every_fit nat example_read example_LocalCluster example_Client
          example_sample example_init example_from_array
          example_contribution example_iadd example_solve example_compute
          self (list_of_strings [:: 0%N]) (list_of_strings [:: 1%N])
          (Some 10%N) 100 3 1 (erefl _)).
Defined.

Lemma fit_shape_mismatch_witness :
  let self :=
    fit_all example_read example_LocalCluster example_Client
      example_sample example_init example_from_array
      example_contribution example_iadd example_solve
      example_compute (unfitted None true) calls_100_rows in
  exists nf no : nat,
    [/\ n_features_ self = Some nf, n_outputs_ self = Some no
      & forall (X0 y0 : nat) (Xs ys : seq nat) (sync_every : option nat)
               (n f r o : nat),
          size Xs = size ys ->
          example_read X0 = Some (n, f) -> example_read y0 = Some (r, o) ->
          (f != nf) || (o != no) ->
          exists2 e, shape_mismatch e
            & example_fit self (list_of_strings (X0 :: Xs))
                  (list_of_strings (y0 :: ys)) sync_every
              = (self, Raise e)].
Proof.
move=> self.
exact: (@fit_shape_mismatch nat example_read example_LocalCluster example_Client
          example_sample example_init example_from_array
          example_contribution example_iadd example_solve example_compute
          None true calls_100_rows (erefl _)).
Defined.

Lemma predict_not_fitted_witness :
  let self :=
    fit_all example_read example_LocalCluster example_Client
      example_sample example_init example_from_array
      example_contribution example_iadd example_solve
      example_compute (unfitted None true) calls_raising in
  (forall files : seq nat,
      example_predict_call self (list_of_strings files)
      = Raise NotFittedError)
  /\ (forall s : shape,
        example_predict_call self (ndarray nat s) = Raise NotFittedError).
Proof.
move=> self.
exact: (@predict_not_fitted nat example_read example_LocalCluster example_Client
          example_sample example_init example_from_array
          example_contribution example_iadd example_solve example_compute
          example_predict example_concatenate example_predict
          None true calls_raising (erefl _)).
Defined.

(** On the fitted estimator, a call whose second shard has 4 features
    instead of 3 does not raise a shape-mismatch error. *)
Lemma later_shards_not_checked_witness :
  let outcome :=
    (example_fit fitted_on_100_rows (list_of_strings [:: 0; 6]%N)
                 (list_of_strings [:: 1; 1]%N) (Some 10%N)).2 in
  (exists2 e, shape_mismatch e & outcome = Raise e)
  <-> schema_differs fitted_on_100_rows 3 1.
Proof.
move=> outcome.
exact: (@later_shards_not_checked nat example_read example_LocalCluster example_Client
          example_sample example_init example_from_array
          example_contribution example_iadd example_solve example_compute
          fitted_on_100_rows 0%N 1%N [:: 6%N] [:: 1%N] (Some 10%N)
          100 3 100 1 (erefl _) (erefl _) (erefl _)).
Defined.

(** In this call the engine raises on the second shard, and the recorded
    schema does not differ from the first shard. *)
Lemma later_shard_of_4_features :
  (example_fit fitted_on_100_rows (list_of_strings [:: 0; 6]%N)
               (list_of_strings [:: 1; 1]%N) (Some 10%N)).2
  = Raise EngineError
  /\ schema_differs fitted_on_100_rows 3 1 = false
  /\ example_read 6 = Some (100, 4)%N.
Proof. by do !split; vm_compute. Qed.

(** ** Further properties of [fit] and [predict] on arrays *)

Section MoreArrays.

Variable R : fieldType.
Variables (n_features_ n_outputs_ : nat).
Variable include_original_features : bool.
Variable hidden_layers_ : seq (HiddenLayer R n_features_).
Variable alpha : R.
Variable bsize_ : nat.
Variable solve : forall n m : nat, 'M[R]_n -> 'M[R]_(n, m) -> 'M[R]_(n, m).
Variable B :
  'M[R]_(n_columns include_original_features hidden_layers_, n_outputs_).

Local Notation n_columns :=
  (n_columns include_original_features hidden_layers_).
Local Notation H_dask := (H_dask include_original_features hidden_layers_).
Local Notation shard := (shard R n_features_ n_outputs_).
Local Notation HtH := (HtH include_original_features hidden_layers_).
Local Notation HtY := (HtY include_original_features hidden_layers_).
Local Notation fit_accumulate :=
  (fit_accumulate include_original_features hidden_layers_).
Local Notation fit_solve := (fit_solve alpha bsize_ solve).
Local Notation fit_loop :=
  (fit_loop include_original_features hidden_layers_ bsize_).
Local Notation fit_arrays :=
  (fit_arrays include_original_features hidden_layers_ alpha bsize_ solve).
Local Notation predict_array := (predict_array B).

(** With a batch size of 0 the first iteration raises at line 165. *)
Lemma fit_loop_0 (sync_every : option nat) (x : shard) (l : seq shard) :
  bsize_ = 0%N -> fit_loop sync_every (x :: l) = Raise ZeroDivisionError.
Proof.
move=> b0; rewrite /fit_loop /accumulate /= /rechunked_contribution /rechunk.
by rewrite b0 /= orbT.
Qed.

(** X8. With a positive batch size the padding is smaller than the batch
    size, it is zero exactly when [HH] has at most one batch of rows or a
    multiple of the batch size, and after padding the number of rows of
    [HH] is at most the batch size or a multiple of it. *)
Theorem fit_padding_aligns (d : nat) :
  (0 < bsize_)%N ->
  exists p : nat,
    [/\ fit_padding d bsize_ = Ok p, (p < bsize_)%N,
        (p == 0%N) = (d <= bsize_)%N || (bsize_ %| d)%N
      & (d <= bsize_)%N || (bsize_ %| d + p)%N].
Proof.
move=> b_gt0; rewrite fit_padding_Ok // [(d <= _)%N]leqNgt.
case: (bsize_ < d)%N => /=; last by exists 0%N.
rewrite lt0n /dvdn; case: ((d %% bsize_)%N =P 0%N) => [d_mod|/eqP d_mod] /=.
  by exists 0%N; split; rewrite // addn0 /dvdn d_mod.
exists (bsize_ - d %% bsize_)%N; split=> //.
- by rewrite ltn_subrL lt0n d_mod.
- by rewrite subn_eq0 leqNgt ltn_mod b_gt0.
- by rewrite -/(dvdn _ _) fit_padding_aligned // lt0n.
Qed.

(** X9. When [HH] has at most one batch of rows, or a multiple of the batch
    size, [fit] pads nothing: [B] is what the solver returns for
    [HH + alpha I] and [HY]. *)
Theorem fit_solve_without_padding (d : nat) (HH : 'M[R]_d)
    (HY : 'M[R]_(d, n_outputs_)) :
  (0 < bsize_)%N -> (d <= bsize_)%N || (bsize_ %| d)%N ->
  fit_solve HH HY = Ok (solve (HH + alpha *: 1%:M) HY).
Proof.
move=> b_gt0 no_pad; rewrite /fit_solve fit_padding_Ok //=.
have -> : (bsize_ < d)%N && (0 < d %% bsize_)%N = false.
  case/orP: no_pad => [d_le|]; first by rewrite ltnNge d_le.
  by rewrite /dvdn lt0n => ->; rewrite andbF.
by [].
Qed.

(** What the loop returns, read backwards. *)
Lemma fit_accumulate_inv (sync_every : option nat) (shards : seq shard)
    (HH : 'M[R]_n_columns) (HY : 'M[R]_(n_columns, n_outputs_)) :
  accumulators (fit_accumulate sync_every shards) = Ok (Some (HH, HY)) ->
  [/\ shards != [::], sync_every != Some 0%N,
      HH = \sum_(s <- shards) HtH s & HY = \sum_(s <- shards) HtY s].
Proof.
case: shards => [|x l] //; case: sync_every => [[|k]|] //.
  by rewrite fit_accumulate_Ok //= => -[<- <-].
by rewrite fit_accumulate_Ok //= => -[<- <-].
Qed.

(** X10. With a batch size of 0, which [fit] sets for a configured
    [batch_size] of 0, and with none configured for a first shard without
    rows, the loop over a non-empty list of shards raises
    [ZeroDivisionError] in its first iteration, at the [rechunk] of line
    165, whatever [sync_every] is: nothing is accumulated, no
    synchronisation call is made, and lines 184-206 are not reached. *)
Theorem fit_arrays_batch_size_0 (sync_every : option nat)
    (shards : seq shard) :
  bsize_ = 0%N -> shards != [::] ->
  fit_loop sync_every shards = Raise ZeroDivisionError
  /\ fit_arrays sync_every shards = Raise ZeroDivisionError.
Proof.
move=> b0; case: shards => [|x l] // _.
by rewrite /fit_arrays fit_loop_0.
Qed.

Lemma HtH_merged (shards : seq shard) :
  \sum_(s <- shards) HtH s = HtH (merged shards).
Proof.
elim: shards => [|s l IH]; rewrite /HtH /shard_X /=.
  by rewrite big_nil [H_dask _]flatmx0 mulmx0.
by rewrite big_cons IH H_dask_col_mx tr_col_mx mul_row_col.
Qed.

Lemma HtY_merged (shards : seq shard) :
  \sum_(s <- shards) HtY s = HtY (merged shards).
Proof.
elim: shards => [|s l IH]; rewrite /HtY /shard_X /shard_Y /=.
  by rewrite big_nil [H_dask _]flatmx0 trmx0 mul0mx.
by rewrite big_cons IH H_dask_col_mx tr_col_mx mul_row_col.
Qed.

(** X11. Cutting a dataset into shards changes nothing: the loop over a
    non-empty list of shards returns the [HH] and [HY] it returns for the
    one shard that holds the rows of all of them, and so [fit] computes the
    same [B]. *)
Theorem fit_on_merged_shards (sync_every sync_every' : option nat)
    (shards : seq shard) :
  shards != [::] ->
  sync_every != Some 0%N -> sync_every' != Some 0%N ->
  accumulators (fit_accumulate sync_every shards)
  = accumulators (fit_accumulate sync_every' [:: merged shards])
  /\ fit_arrays sync_every shards
     = fit_arrays sync_every' [:: merged shards].
Proof.
case: shards => [|x l] // _ sync_ok sync_ok'.
have eq_acc : fit_accumulate sync_every (x :: l)
              = (fit_accumulate sync_every (x :: l)) by [].
rewrite !fit_accumulate_Ok //= !big_seq1 -HtH_merged -HtY_merged; split=> //.
rewrite /fit_arrays; case: (posnP bsize_) => [b0|b_gt0].
  by rewrite !fit_loop_0.
by rewrite !fit_loop_pos // !fit_accumulate_Ok //= !big_seq1
           -HtH_merged -HtY_merged.
Qed.

Lemma HtH_sym (s : shard) : (HtH s)^T = HtH s.
Proof. by rewrite /HtH trmx_mul trmxK. Qed.

Lemma sum_HtH_sym (shards : seq shard) :
  (\sum_(s <- shards) HtH s)^T = \sum_(s <- shards) HtH s.
Proof. by rewrite raddf_sum; apply: eq_bigr => s _; apply: HtH_sym. Qed.

Lemma ridge_sym (d : nat) (A : 'M[R]_d) :
  A^T = A -> (A + alpha *: 1%:M)^T = A + alpha *: 1%:M.
Proof. by move=> A_sym; rewrite linearD /= scale_scalar_mx tr_scalar_mx A_sym. Qed.

Lemma padded_sym (d p : nat) (A : 'M[R]_d) :
  A^T = A -> (block_mx A 0 0 0 : 'M[R]_(d + p))^T = block_mx A 0 0 0.
Proof. by move=> A_sym; rewrite tr_block_mx !trmx0 A_sym. Qed.

(** X12. The [HH] the loop returns is symmetric, and so is the matrix
    handed to the solver, with or without padding, as [sym_pos=True]
    announces. *)
Theorem accumulated_HH_symmetric (sync_every : option nat)
    (shards : seq shard) (HH : 'M[R]_n_columns)
    (HY : 'M[R]_(n_columns, n_outputs_)) :
  accumulators (fit_accumulate sync_every shards) = Ok (Some (HH, HY)) ->
  [/\ HH^T = HH,
      (HH + alpha *: 1%:M)^T = HH + alpha *: 1%:M
    & forall p : nat,
        (block_mx HH 0 0 0 + alpha *: 1%:M : 'M[R]_(n_columns + p))^T
        = block_mx HH 0 0 0 + alpha *: 1%:M].
Proof.
case/fit_accumulate_inv=> _ _ -> _.
by split=> [||p]; rewrite ?ridge_sym ?padded_sym ?sum_HtH_sym.
Qed.

(** *** [predict] row by row *)

Lemma row_H0 (hl : HiddenLayer R n_features_) (r : nat)
    (X : 'M[R]_(r, n_features_)) (i : 'I_r) :
  row i (H0 hl X) = H0 hl (row i X).
Proof.
rewrite /H0; case: (is_PAIRWISE _); last by rewrite -map_row row_mul.
by apply/rowP=> j; rewrite !mxE row_id.
Qed.

Lemma row_hidden_blocks (hls : seq (HiddenLayer R n_features_)) (r : nat)
    (X : 'M[R]_(r, n_features_)) (i : 'I_r) :
  row i (hidden_blocks X hls) = hidden_blocks (row i X) hls.
Proof.
elim: hls => [|hl hls IH] /=; first by apply/rowP; case.
by rewrite row_row_mx IH row_H0.
Qed.

Lemma row_H_dask (r : nat) (X : 'M[R]_(r, n_features_)) (i : 'I_r) :
  row i (H_dask X) = H_dask (row i X).
Proof.
rewrite /H_dask !row_row_mx row_const row_hidden_blocks.
congr (row_mx _ (row_mx _ _)); rewrite /original_features.
by case: include_original_features => //; apply/rowP; case.
Qed.

(** X14. The prediction for a sample does not depend on the other samples
    of the array: row [i] of what [predict] returns for an array is what
    [predict] returns for row [i] alone. *)
Theorem predict_array_row (r : nat) (X : 'M[R]_(r, n_features_))
    (Y : 'M[R]_(r, n_outputs_)) (i : 'I_r) :
  predict_array X = Ok Y -> predict_array (row i X) = Ok (row i Y).
Proof.
rewrite /predict_array /check_array /=.
case: (0 < r)%N => //=; case: (0 < n_features_)%N => //= -[<-].
by rewrite !transforms_hidden_blocks -!/(H_dask _) row_mul row_H_dask.
Qed.

End MoreArrays.

(** ** The system [fit] solves, over the reals *)

Section RidgeSystem.

Import Order.TTheory Num.Theory.

Variable R : realFieldType.
Variables (n_features_ n_outputs_ : nat).
Variable include_original_features : bool.
Variable hidden_layers_ : seq (HiddenLayer R n_features_).
Variable alpha : R.
Variable bsize_ : nat.
Variable solve : forall n m : nat, 'M[R]_n -> 'M[R]_(n, m) -> 'M[R]_(n, m).

Local Notation n_columns :=
  (n_columns include_original_features hidden_layers_).
Local Notation H_dask := (H_dask include_original_features hidden_layers_).
Local Notation shard := (shard R n_features_ n_outputs_).
Local Notation HtH := (HtH include_original_features hidden_layers_).
Local Notation HtY := (HtY include_original_features hidden_layers_).
Local Notation fit_accumulate :=
  (fit_accumulate include_original_features hidden_layers_).
Local Notation fit_arrays :=
  (fit_arrays include_original_features hidden_layers_ alpha bsize_ solve).

(** The square of the length of a row. *)
Lemma rV_sq (n : nat) (w : 'rV[R]_n) :
  (w *m w^T) 0 0 = \sum_j (w 0 j) ^+ 2.
Proof. by rewrite mxE; apply: eq_bigr => j _; rewrite mxE expr2. Qed.

Lemma rV_sq_ge0 (n : nat) (w : 'rV[R]_n) : 0 <= (w *m w^T) 0 0.
Proof. by rewrite rV_sq sumr_ge0 // => j _; apply: sqr_ge0. Qed.

Lemma rV_sq_gt0 (n : nat) (w : 'rV[R]_n) : w != 0 -> 0 < (w *m w^T) 0 0.
Proof.
rewrite lt0r rV_sq_ge0 andbT rV_sq; apply: contra_neq => sum0.
apply/rowP=> j; rewrite mxE; apply/eqP; rewrite -(sqrf_eq0 (w 0 j)).
have : (\sum_j w 0 j ^+ 2) == 0 by rewrite sum0.
rewrite psumr_eq0; first by move=> i _; apply: sqr_ge0.
by move/allP/(_ j (mem_index_enum j)).
Qed.

Lemma gram_pos_semidef (r d : nat) (H : 'M[R]_(r, d)) :
  pos_semidef (H^T *m H).
Proof.
move=> v; have -> : v *m (H^T *m H) *m v^T = (v *m H^T) *m (v *m H^T)^T.
  by rewrite trmx_mul trmxK !mulmxA.
exact: rV_sq_ge0.
Qed.

Lemma sum_HtH_pos_semidef (shards : seq shard) :
  pos_semidef (\sum_(s <- shards) HtH s).
Proof.
move=> v; rewrite mulmx_sumr mulmx_suml summxE sumr_ge0 // => s _.
exact: gram_pos_semidef.
Qed.

Lemma padded_pos_semidef (d p : nat) (A : 'M[R]_d) :
  pos_semidef A -> pos_semidef (block_mx A 0 0 0 : 'M[R]_(d + p)).
Proof.
move=> A_psd v; rewrite -[v]hsubmxK mul_row_block tr_row_mx mul_row_col.
by rewrite !mulmx0 !addr0 mul0mx addr0.
Qed.

Lemma ridge_sym_pos (d : nat) (A : 'M[R]_d) :
  0 < alpha -> A^T = A -> pos_semidef A -> sym_pos (A + alpha *: 1%:M).
Proof.
move=> alpha_gt0 A_sym A_psd; split=> [|v v_neq0].
  by rewrite linearD /= scale_scalar_mx tr_scalar_mx A_sym.
rewrite mulmxDr mulmxDl mxE ltr_wpDl //.
by rewrite -scalemxAr mulmx1 -scalemxAl mxE mulr_gt0 // rV_sq_gt0.
Qed.

Lemma sym_pos_unitmx (d : nat) (A : 'M[R]_d) : sym_pos A -> A \in unitmx.
Proof.
case=> _ A_pos; rewrite -row_free_unit -kermx_eq0.
apply/rowV0P => v /sub_kermxP vA0; apply/eqP; apply: contraT => v_neq0.
by have := A_pos v v_neq0; rewrite vA0 mul0mx mxE ltxx.
Qed.

(** X13. With [alpha] positive, the matrix [fit] hands to the solver is
    symmetric and positive definite, as [sym_pos=True] requires, both
    without padding and with any number of padded rows. *)
Theorem solver_gets_sym_pos (sync_every : option nat) (shards : seq shard)
    (HH : 'M[R]_n_columns) (HY : 'M[R]_(n_columns, n_outputs_)) :
  0 < alpha ->
  accumulators (fit_accumulate sync_every shards) = Ok (Some (HH, HY)) ->
  sym_pos (HH + alpha *: 1%:M)
  /\ forall p : nat,
       sym_pos (block_mx HH 0 0 0 + alpha *: 1%:M : 'M[R]_(n_columns + p)).
Proof.
move=> alpha_gt0 /fit_accumulate_inv[_ _ -> _].
have HH_sym : (\sum_(s <- shards) HtH s)^T = \sum_(s <- shards) HtH s.
  exact: sum_HtH_sym.
have HH_psd := sum_HtH_pos_semidef shards.
split=> [|p]; apply: ridge_sym_pos => //; first exact: padded_sym.
exact: padded_pos_semidef.
Qed.

(** X15. With [alpha] positive, a positive batch size and a solver that
    returns the solution of every nonsingular system, [fit] on a non-empty
    list of shards returns, and its [B] is the one solution of the
    regularised normal equations [(HH + alpha I) B = HY] of the shards,
    whether [HH] was padded or not. *)
Theorem fit_arrays_ridge_solution (sync_every : option nat)
    (shards : seq shard) :
  0 < alpha -> (0 < bsize_)%N ->
  (forall (n m : nat) (A : 'M[R]_n) (Y : 'M[R]_(n, m)),
      A \in unitmx -> A *m solve A Y = Y) ->
  shards != [::] -> sync_every != Some 0%N ->
  let HH := \sum_(s <- shards) HtH s in
  let HY := \sum_(s <- shards) HtY s in
  exists2 B_fit, fit_arrays sync_every shards = Ok B_fit
    & (HH + alpha *: 1%:M) *m B_fit = HY
      /\ forall B', (HH + alpha *: 1%:M) *m B' = HY -> B' = B_fit.
Proof.
move=> alpha_gt0 b_gt0 solve_ok.
case: shards => [|x l] // _ sync_ok HH HY.
have HH_sym : HH^T = HH by apply: sum_HtH_sym.
have HH_psd : pos_semidef HH by apply: sum_HtH_pos_semidef.
have reg_unit : HH + alpha *: 1%:M \in unitmx.
  exact/sym_pos_unitmx/ridge_sym_pos.
have pad_unit p :
    (block_mx HH 0 0 0 + alpha *: 1%:M : 'M[R]_(n_columns + p)) \in unitmx.
  apply/sym_pos_unitmx/ridge_sym_pos => //; first exact: padded_sym.
  exact: padded_pos_semidef.
rewrite /fit_arrays fit_loop_pos // fit_accumulate_Ok //= -/HH -/HY.
rewrite /fit_solve.
rewrite fit_padding_Ok //=.
case: (bsize_ < n_columns)%N; case: (0 < n_columns %% bsize_)%N => /=.
- rewrite subn_gt0 ltn_mod b_gt0.
  set B_fit := usubmx _; exists B_fit => //.
  have solved : (HH + alpha *: 1%:M) *m B_fit = HY.
    by apply: padded_solution; apply: solve_ok.
  by split=> // B' solved'; apply: unique_solution solved' solved.
- exists (solve (HH + alpha *: 1%:M) HY) => //.
  have solved := solve_ok _ _ _ HY reg_unit.
  by split=> // B' solved'; apply: unique_solution solved' solved.
- exists (solve (HH + alpha *: 1%:M) HY) => //.
  have solved := solve_ok _ _ _ HY reg_unit.
  by split=> // B' solved'; apply: unique_solution solved' solved.
- exists (solve (HH + alpha *: 1%:M) HY) => //.
  have solved := solve_ok _ _ _ HY reg_unit.
  by split=> // B' solved'; apply: unique_solution solved' solved.
Qed.

End RidgeSystem.

(** ** [_read_numeric_file] *)

Section ReadNumericFileTheory.

Variables (fname dataframe numpy_array : Type).
Variable dd_read_parquet : fname -> exc dataframe.
Variable dd_read_csv : fname -> exc dataframe.
Variable np_load : fname -> exc numpy_array.

Local Notation _read_numeric_file :=
  (_read_numeric_file dd_read_parquet dd_read_csv np_load).

(** X1. [_read_numeric_file] never raises.  It returns what
    [dd.read_parquet] returns whenever that call returns, whatever the two
    other readers would do; it turns to [dd.read_csv] only when
    [dd.read_parquet] raised, and to [np.load] only when both raised; and
    it returns [None] exactly when the three readers raise. *)
Theorem read_numeric_file_fallback (f : fname) :
  [/\ exists r, _read_numeric_file f = Ok r,
      forall df, dd_read_parquet f = Ok df ->
        _read_numeric_file f = Ok (Some (from_dataframe numpy_array df)),
      forall df, raised (dd_read_parquet f) -> dd_read_csv f = Ok df ->
        _read_numeric_file f = Ok (Some (from_dataframe numpy_array df)),
      forall a, raised (dd_read_parquet f) -> raised (dd_read_csv f) ->
        np_load f = Ok a ->
        _read_numeric_file f = Ok (Some (from_array dataframe a))
    & _read_numeric_file f = Ok None
      <-> [/\ raised (dd_read_parquet f), raised (dd_read_csv f)
            & raised (np_load f)]].
Proof.
rewrite /_read_numeric_file /try_return.
case: (dd_read_parquet f) => [df|e] /=;
  case: (dd_read_csv f) => [df'|e'] /=;
  case: (np_load f) => [a|e''] /=;
  split=> //; try (by eexists); try (by move=> ? [->]);
  try (by move=> ? _ [->]); try (by move=> ? _ _ [->]);
  by split=> [|[]].
Qed.

End ReadNumericFileTheory.

(** ** Further properties of [fit] on the estimator *)

Section MoreEstimator.

Variable fname : Type.
Variable read_parquet : fname -> option shape.
Variable LocalCluster : LargeELMRegressor -> bool.
Variable Client : LargeELMRegressor -> bool.
Variable engine_sample : LargeELMRegressor -> shape -> bool.
Variable _init_hidden_layers :
  LargeELMRegressor -> shape
  -> option (seq (HiddenLayerType * shape)) * bool.
Variable engine_from_array : seq (HiddenLayerType * shape) -> bool.
Variable engine_contribution :
  LargeELMRegressor -> shape -> shape -> option (shape * shape).
Variable engine_iadd : shape * shape -> shape * shape -> option (shape * shape).
Variable engine_solve :
  LargeELMRegressor -> shape * shape -> nat -> option shape.
Variable engine_compute : LargeELMRegressor -> shape * shape -> bool.

Local Notation argument := (argument fname).
Local Notation fit_call := (fit_call fname).
Local Notation fit_checks := (fit_checks read_parquet).
Local Notation fit_init :=
  (fit_init LocalCluster Client engine_sample _init_hidden_layers).
Local Notation fit_W_dask := (fit_W_dask engine_from_array).
Local Notation file_contribution :=
  (file_contribution read_parquet engine_contribution).
Local Notation fit_B :=
  (fit_B read_parquet engine_contribution engine_iadd engine_solve).
Local Notation fit :=
  (fit read_parquet LocalCluster Client engine_sample _init_hidden_layers
     engine_from_array engine_contribution engine_iadd engine_solve
     engine_compute).
Local Notation fit_of :=
  (fit_of read_parquet LocalCluster Client engine_sample _init_hidden_layers
     engine_from_array engine_contribution engine_iadd engine_solve
     engine_compute).
Local Notation fit_all :=
  (fit_all read_parquet LocalCluster Client engine_sample _init_hidden_layers
     engine_from_array engine_contribution engine_iadd engine_solve
     engine_compute).
Local Notation fit_cases :=
  (fit_cases read_parquet LocalCluster Client engine_sample
     _init_hidden_layers engine_from_array engine_contribution engine_iadd
     engine_solve engine_compute).
Local Notation fit_init_attributes :=
  (fit_init_attributes LocalCluster Client engine_sample
     _init_hidden_layers).
Local Notation fit_init_schema :=
  (@fit_init_schema LocalCluster Client engine_sample _init_hidden_layers).
Local Notation fit_init_skipped :=
  (@fit_init_skipped LocalCluster Client engine_sample _init_hidden_layers).

(** What passing the checks tells about the arguments and the recorded
    schema. *)
Lemma fit_checks_Ok (self : LargeELMRegressor) (X y : argument)
    (n f o : nat) :
  fit_checks self X y = Ok (n, f, o) ->
  [/\ exists X0 Xs, files_of X = X0 :: Xs
        /\ read_parquet X0 = Some (n, f),
      exists y0 ys r, files_of y = y0 :: ys
        /\ read_parquet y0 = Some (r, o),
      (if n_features_ self is Some n' then n' == f else true)
    & (if n_outputs_ self is Some n' then n' == o else true)].
Proof.
rewrite /fit_checks; case: ifP => // _; case: ifP => // _.
case: (files_of X) => [|X0 Xs] //=.
case rX: (read_parquet X0) => [[n' f']|] //=.
case: (files_of y) => [|y0 ys] //=.
case ry: (read_parquet y0) => [[r o']|] //=.
case: ifP => // chk_f; case: ifP => // chk_o [<- <- <-]; split.
- by exists X0, Xs.
- by exists y0, ys, r.
- by case: (n_features_ self) chk_f => // n'' /negbFE.
- by case: (n_outputs_ self) chk_o => // n'' /negbFE.
Qed.

(** After the initialisation of a call whose checks pass, the recorded
    schema is the one of the first shard of the call. *)
Lemma fit_init_records (self : LargeELMRegressor) (X y : argument)
    (b n f o : nat) :
  initialised self -> fit_checks self X y = Ok (n, f, o) ->
  let self' := (fit_init (set_bsize_ self b) n f o).1 in
  n_features_ self' = Some f /\ n_outputs_ self' = Some o.
Proof.
move=> init_self checks.
case E: (hidden_layers_ self) => [hls|]; last exact: fit_init_schema.
rewrite /= (fit_init_skipped (self := set_bsize_ self b) n f o E) /=.
have [_ _] := fit_checks_Ok checks.
move: init_self; rewrite /initialised E /= => /and3P[_].
case: (n_features_ self) => // nf _; case: (n_outputs_ self) => // no _.
by move=> /eqP -> /eqP ->.
Qed.

(** X2. A call of [fit] whose arguments are not two lists of file names of
    the same length, or are two empty lists, raises before any file is
    read and leaves the estimator as it was: [ValueError] for arguments
    that are not lists of file names and for lists of different lengths,
    [IndexError] for two empty lists. *)
Theorem fit_rejects_arguments (self : LargeELMRegressor)
    (sync_every : option nat) :
  [/\ forall X y : argument,
        ~~ _is_list_of_strings X || ~~ _is_list_of_strings y ->
        fit self X y sync_every = (self, Raise ValueError_expected_lists),
      forall Xs ys : seq fname, size Xs != size ys ->
        fit self (list_of_strings Xs) (list_of_strings ys) sync_every
        = (self, Raise ValueError_same_length)
    & fit self (list_of_strings [::]) (list_of_strings [::]) sync_every
      = (self, Raise IndexError)].
Proof.
split=> [X y bad|Xs ys bad|]; apply: fit_checks_Raise; rewrite /fit_checks //.
  by rewrite bad.
by rewrite /= bad.
Qed.

(** X3. A call of [fit] that returns leaves the estimator fitted, with [B]
    set, with the feature and output counts of the first shard of the call
    as recorded schema, and with the batch size of the call. *)
Theorem fit_returns_fitted (batch_size0 : option nat) (iof : bool)
    (calls : seq fit_call) (X y : argument) (sync_every : option nat) :
  let self := fit_all (unfitted batch_size0 iof) calls in
  let self' := (fit self X y sync_every).1 in
  (fit self X y sync_every).2 = Ok tt ->
  exists n f o : nat,
    [/\ fit_checks self X y = Ok (n, f, o),
        is_fitted_ self' /\ isSome (B self'),
        n_features_ self' = Some f, n_outputs_ self' = Some o
      & bsize_ self' = Some (fit_bsize (batch_size self) n)].
Proof.
move=> self self'; rewrite /self'.
have init_self : initialised self by apply: fit_all_initialised.
case: (fit_cases self X y sync_every) => [[e _ ->] //|[n [f [o /= [checks]]]]].
case=> [[e -> _] //|[b -> //]|[b [-> _ _]]] /= _.
exists n, f, o.
have [_ -> _ _] := fit_init_attributes self
  (fit_bsize (batch_size self) n) n f o.
by have [-> ->] := fit_init_records (fit_bsize (batch_size self) n)
  init_self checks.
Qed.

Lemma fit_keeps_layers (self : LargeELMRegressor) (X y : argument)
    (sync_every : option nat) (hls : seq (HiddenLayerType * shape)) :
  hidden_layers_ self = Some hls ->
  let self' := (fit self X y sync_every).1 in
  [/\ hidden_layers_ self' = Some hls, n_features_ self' = n_features_ self,
      n_outputs_ self' = n_outputs_ self, cluster_ self' = cluster_ self
    & client_ self' = client_ self].
Proof.
move=> layers /=.
case: (fit_cases self X y sync_every) => [[e _ ->] //|[n [f [o /= [_]]]]].
rewrite (fit_init_skipped (self := set_bsize_ self _) n f o layers) /=.
by case=> [[e -> _]|[b ->]|[b [-> _ _]]].
Qed.


Lemma fit_keeps_is_fitted_ (self : LargeELMRegressor) (X y : argument)
    (sync_every : option nat) :
  is_fitted_ self -> is_fitted_ (fit self X y sync_every).1.
Proof.
move=> fitted.
case: (fit_cases self X y sync_every) => [[e _ ->] //|[n [f [o /= [_]]]]].
have [_ _ E _] := fit_init_attributes self
  (fit_bsize (batch_size self) n) n f o.
by case=> [[e -> _]|[b ->]|[b [-> _ _]]] //=; rewrite E.
Qed.

(** X5. A fitted estimator stays fitted: no later call of [fit], whether
    it returns or raises, unsets [is_fitted_]. *)
Theorem fitted_stays_fitted (self : LargeELMRegressor)
    (calls : seq fit_call) :
  is_fitted_ self -> is_fitted_ (fit_all self calls).
Proof.
elim: calls self => [|c calls IH] self //= fitted.
by apply: IH; apply: fit_keeps_is_fitted_.
Qed.

(** X6. A call of [fit] on an estimator without hidden layers that passes
    the checks and then raises leaves the estimator as fitted as it was,
    with the feature and output counts of that call's first shard
    recorded: lines 121 and 122 run before anything of the initialisation
    can raise, so the schema is recorded whether or not the hidden layers
    were created.  A later call whose first shard has another feature
    count then raises the shape-mismatch error of line 108 and leaves the
    estimator as it is. *)
Theorem failed_fit_records_schema (self : LargeELMRegressor)
    (X y : argument) (sync_every : option nat) (n f o : nat) :
  hidden_layers_ self = None ->
  fit_checks self X y = Ok (n, f, o) ->
  raised (fit self X y sync_every).2 ->
  let self' := (fit self X y sync_every).1 in
  [/\ is_fitted_ self' = is_fitted_ self,
      n_features_ self' = Some f, n_outputs_ self' = Some o
    & forall (X0 y0 : fname) (Xs ys : seq fname) (sync_every' : option nat)
             (n' f' r' o' : nat),
        size Xs = size ys ->
        read_parquet X0 = Some (n', f') -> read_parquet y0 = Some (r', o') ->
        f' != f ->
        fit self' (list_of_strings (X0 :: Xs)) (list_of_strings (y0 :: ys))
            sync_every'
        = (self', Raise ValueError_input_shape)].
Proof.
move=> no_layers checks; rewrite /=.
case: (fit_cases self X y sync_every) => [[e]|[n1 [f1 [o1 /= []]]]].
  by rewrite checks.
rewrite checks => -[<- <- <-].
have [_ _ fitted_eq _] := fit_init_attributes self
  (fit_bsize (batch_size self) n) n f o.
have [rec_f rec_o] :=
  fit_init_schema (self := set_bsize_ self (fit_bsize (batch_size self) n))
    n f o no_layers.
have rejects (s : LargeELMRegressor) : n_features_ s = Some f ->
    forall (X0 y0 : fname) (Xs ys : seq fname) (sync_every' : option nat)
           (n' f' r' o' : nat),
      size Xs = size ys ->
      read_parquet X0 = Some (n', f') -> read_parquet y0 = Some (r', o') ->
      f' != f ->
      fit s (list_of_strings (X0 :: Xs)) (list_of_strings (y0 :: ys))
          sync_every'
      = (s, Raise ValueError_input_shape).
  move=> rec_s X0 y0 Xs ys sync' n' f' r' o' eq_size rX ry f_neq.
  apply: fit_checks_Raise.
  by rewrite (fit_checks_first_shard _ eq_size rX ry) rec_s eq_sym f_neq.
by case=> [[e -> _]|[b ->]|[b [-> _ _]]] //= _; split=> //; exact: rejects.
Qed.

Lemma fit_B_sync_every_0 (self : LargeELMRegressor) (bsize : nat)
    (X0 y0 : fname) (Xs ys : seq fname) :
  match file_contribution self (X0, y0) with
  | Ok _ =>
      fit_B self bsize (X0 :: Xs) (y0 :: ys) (Some 0%N)
      = Raise ZeroDivisionError
  | Raise e => fit_B self bsize (X0 :: Xs) (y0 :: ys) (Some 0%N) = Raise e
  end.
Proof.
rewrite /fit_B /accumulate /=.
case: (read_parquet X0) => [X_dask|] //=.
case: (read_parquet y0) => [Y_dask|] //=.
by case: (engine_contribution _ _ _).
Qed.

(** X7. With [sync_every = 0] no call of [fit] returns, and the estimator
    is as fitted after the call as it was before: when the checks pass,
    the initialisation and line 138 return, and the first shard is read
    and accumulated, the test of line 176 raises [ZeroDivisionError]. *)
Theorem fit_sync_every_0 (self : LargeELMRegressor) (X y : argument) :
  [/\ raised (fit self X y (Some 0%N)).2,
      is_fitted_ (fit self X y (Some 0%N)).1 = is_fitted_ self
    & forall (n f o : nat) (X0 y0 : fname) (Xs ys : seq fname)
             (c : shape * shape),
        fit_checks self X y = Ok (n, f, o) ->
        files_of X = X0 :: Xs -> files_of y = y0 :: ys ->
        let init :=
          fit_init (set_bsize_ self (fit_bsize (batch_size self) n)) n f o in
        init.2 = Ok tt -> fit_W_dask init.1 = Ok tt ->
        file_contribution init.1 (X0, y0) = Ok c ->
        (fit self X y (Some 0%N)).2 = Raise ZeroDivisionError].
Proof.
have is_raised : raised (fit self X y (Some 0%N)).2.
  rewrite /fit; case Ec: (fit_checks self X y) => [[[n f] o]|e] //.
  have [[X0 [Xs [-> _]]] [y0 [ys [r [-> _]]]] _ _] := fit_checks_Ok Ec.
  case: (fit_init _ _ _ _) => [self' [[]|e]] //=.
  case: (fit_W_dask self') => [[]|e] //=.
  set b := fit_bsize _ _.
  have := fit_B_sync_every_0 self' b X0 y0 Xs ys.
  by case: (file_contribution _ _) => [c|e] ->.
split=> //; first exact: fit_raised_is_fitted_.
move=> n f o X0 y0 Xs ys c checks X_eq y_eq init.
rewrite /fit checks X_eq y_eq -/init.
case: init => [self' init] /= -> -> contrib.
set b := fit_bsize _ _.
have := fit_B_sync_every_0 self' b X0 y0 Xs ys.
by rewrite /file_contribution contrib => ->.
Qed.

End MoreEstimator.

(** X16. The default batch size is at most the row count of the first
    shard, and it is zero only for a first shard without rows. *)
Theorem default_bsize_bounds (n_samples : nat) :
  (default_bsize n_samples <= n_samples)%N
  /\ (default_bsize n_samples == 0%N) = (n_samples == 0%N).
Proof.
rewrite /default_bsize; case: ltnP => // big.
have n_ge : (2000 <= n_samples)%N by apply: leq_trans big.
by rewrite n_ge; split=> //; rewrite [RHS]eqn0Ngt (leq_trans _ n_ge).
Qed.

(** ** The further properties at concrete inputs *)

Lemma fit_padding_aligns_witness :
  exists p : nat,
    [/\ fit_padding 5 2 = Ok p, (p < 2)%N,
        (p == 0%N) = (5 <= 2)%N || (2 %| 5)%N
      & (5 <= 2)%N || (2 %| 5 + p)%N].
Proof. exact: (@fit_padding_aligns 2 5 (erefl _)). Defined.

Lemma fit_solve_without_padding_witness :
  let HH : 'M[rat]_2 := 1%:M in
  let HY : 'M[rat]_(2, 1) := const_mx 1 in
  fit_solve 1 2 exact_solve HH HY = Ok (exact_solve (HH + 1 *: 1%:M) HY).
Proof.
move=> HH HY.
exact: (@fit_solve_without_padding rat 1 1 2 exact_solve 2 HH HY
          (erefl _) (erefl _)).
Defined.

Lemma fit_arrays_batch_size_0_witness :
  fit_loop true layers_1 0 (Some 10%N) [:: shard_1x1; shard_2x1]
  = Raise ZeroDivisionError
  /\ fit_arrays true layers_1 1 0 exact_solve (Some 10%N)
                [:: shard_1x1; shard_2x1]
     = Raise ZeroDivisionError.
Proof.
exact: (@fit_arrays_batch_size_0 rat 1 1 true layers_1 1 0 exact_solve
          (Some 10%N) [:: shard_1x1; shard_2x1] (erefl _) (erefl _)).
Defined.

Lemma fit_on_merged_shards_witness :
  let shards := [:: shard_1x1; shard_1x1] in
  accumulators (fit_accumulate true layers_1 (Some 10%N) shards)
  = accumulators (fit_accumulate true layers_1 None [:: merged shards])
  /\ fit_arrays true layers_1 1 2 exact_solve (Some 10%N) shards
     = fit_arrays true layers_1 1 2 exact_solve None [:: merged shards].
Proof.
move=> shards.
exact: (@fit_on_merged_shards rat 1 1 true layers_1 1 2 exact_solve
          (Some 10%N) None shards (erefl _) (erefl _) (erefl _)).
Defined.

(** The accumulators of a run on one shard. *)
Lemma accumulators_shard_1x1 :
  accumulators (fit_accumulate true layers_1 None [:: shard_1x1])
  = Ok (Some (\sum_(s <- [:: shard_1x1]) HtH true layers_1 s,
              \sum_(s <- [:: shard_1x1]) HtY true layers_1 s)).
Proof. by rewrite fit_accumulate_Ok. Defined.

Lemma accumulated_HH_symmetric_witness :
  let HH := \sum_(s <- [:: shard_1x1]) HtH true layers_1 s in
  [/\ HH^T = HH, (HH + 1 *: 1%:M)^T = HH + 1 *: 1%:M
    & forall p : nat,
        (block_mx HH 0 0 0 + 1 *: 1%:M
         : 'M[rat]_(n_columns true layers_1 + p))^T
        = block_mx HH 0 0 0 + 1 *: 1%:M].
Proof.
move=> HH.
exact: (accumulated_HH_symmetric 1 accumulators_shard_1x1).
Defined.

Lemma predict_array_row_witness :
  let B : 'M[rat]_(n_columns true layers_1, 1) := const_mx 1 in
  let X : 'M[rat]_(2, 1) := const_mx 1 in
  predict_array B (row ord0 X)
  = Ok (row ord0 (H_dask true layers_1 X *m B)).
Proof.
move=> B X.
exact: (@predict_array_row rat 1 1 true layers_1 B 2 X
          (H_dask true layers_1 X *m B) ord0 (erefl _)).
Defined.

Lemma solver_gets_sym_pos_witness :
  let HH := \sum_(s <- [:: shard_1x1]) HtH true layers_1 s in
  sym_pos (HH + 1 *: 1%:M)
  /\ forall p : nat,
       sym_pos (block_mx HH 0 0 0 + 1 *: 1%:M
                : 'M[rat]_(n_columns true layers_1 + p)).
Proof.
move=> HH.
exact: (@solver_gets_sym_pos rat 1 1 true layers_1 1 None [:: shard_1x1]
          _ _ (erefl _) accumulators_shard_1x1).
Defined.

Lemma exact_solve_correct (n m : nat) (A : 'M[rat]_n) (Y : 'M[rat]_(n, m)) :
  A \in unitmx -> A *m exact_solve A Y = Y.
Proof. by move=> A_unit; rewrite /exact_solve mulKVmx. Qed.

Lemma fit_arrays_ridge_solution_witness :
  let shards := [:: shard_1x1; shard_1x1] in
  let HH := \sum_(s <- shards) HtH true layers_1 s in
  let HY := \sum_(s <- shards) HtY true layers_1 s in
  exists2 B_fit,
    fit_arrays true layers_1 1 2 exact_solve (Some 10%N) shards = Ok B_fit
    & (HH + 1 *: 1%:M) *m B_fit = HY
      /\ forall B', (HH + 1 *: 1%:M) *m B' = HY -> B' = B_fit.
Proof.
move=> shards.
exact: (@fit_arrays_ridge_solution rat 1 1 true layers_1 1 2 exact_solve
          (Some 10%N) shards (erefl _) (erefl _) exact_solve_correct
          (erefl _) (erefl _)).
Defined.

Lemma fit_returns_fitted_witness :
  let self := unfitted None true in
  let X := list_of_strings [:: 0%N] in
  let y := list_of_strings [:: 1%N] in
  let self' := (example_fit self X y (Some 10%N)).1 in
  exists n f o : nat,
    [/\ fit_checks example_read self X y = Ok (n, f, o),
        is_fitted_ self' /\ isSome (B self'),
        n_features_ self' = Some f, n_outputs_ self' = Some o
      & bsize_ self' = Some (fit_bsize (batch_size self) n)].
Proof.
move=> self X y self'.
exact: (@fit_returns_fitted nat example_read example_LocalCluster example_Client
          example_sample example_init example_from_array
          example_contribution example_iadd example_solve example_compute
          None true [::] X y (Some 10%N) (erefl _)).
Defined.


Lemma fitted_stays_fitted_witness :
  is_fitted_
    (fit_all example_read example_LocalCluster example_Client
       example_sample example_init example_from_array
       example_contribution example_iadd example_solve
       example_compute fitted_on_100_rows calls_raising).
Proof.
exact: (@fitted_stays_fitted nat example_read example_LocalCluster example_Client
          example_sample example_init example_from_array
          example_contribution example_iadd example_solve example_compute
          fitted_on_100_rows calls_raising (erefl _)).
Defined.

(** The first shard, files 7 and 8, has no rows: [_init_hidden_layers]
    raises and leaves [hidden_layers_] unset, after the schema of 3
    features and one output was recorded. *)
Lemma failed_fit_records_schema_witness :
  let self' :=
    (example_fit (unfitted None true) (list_of_strings [:: 7%N])
                 (list_of_strings [:: 8%N]) None).1 in
  [/\ is_fitted_ self' = false,
      n_features_ self' = Some 3%N, n_outputs_ self' = Some 1%N
    & forall (X0 y0 : nat) (Xs ys : seq nat) (sync_every' : option nat)
             (n' f' r' o' : nat),
        size Xs = size ys ->
        example_read X0 = Some (n', f') -> example_read y0 = Some (r', o') ->
        f' != 3%N ->
        example_fit self' (list_of_strings (X0 :: Xs))
                    (list_of_strings (y0 :: ys)) sync_every'
        = (self', Raise ValueError_input_shape)].
Proof.
move=> self'.
exact: (@failed_fit_records_schema nat example_read example_LocalCluster
          example_Client example_sample example_init example_from_array
          example_contribution example_iadd example_solve example_compute
          (unfitted None true) (list_of_strings [:: 7%N])
          (list_of_strings [:: 8%N]) None 0 3 1
          (erefl _) (erefl _) (erefl _)).
Defined.

(** In that call the initialisation raises: the estimator has a schema,
    a cluster and a client, and no hidden layers. *)
Lemma failed_init_without_layers :
  let run := example_fit (unfitted None true) (list_of_strings [:: 7%N])
                         (list_of_strings [:: 8%N]) None in
  [/\ run.2 = Raise HiddenLayerError, hidden_layers_ run.1 = None,
      n_features_ run.1 = Some 3%N, cluster_ run.1 & client_ run.1].
Proof. by split; vm_compute. Qed.
